(** * pyOutlook: the [Folder] client of [pyOutlook/core/folders.py]

    A shallow embedding of the [Folder] class and a verification of its
    request / response / error contract.

    Python objects live in a heap and are referred to by location, so that
    what a method does to the instance it is invoked on, and to the account
    that instance borrows, can be stated.  The HTTP transport is an oracle:
    a queue of responses that the server is about to give, and a trace that
    records every request sent and every body decoded. *)

From Stdlib Require Import Ascii String ZArith SpecFloat.
From stdpp Require Import gmap strings list fin_maps pretty.

Local Open Scope Z_scope.

(** ** Python values

    What [r.json()] can return: [None], booleans, integers, floats,
    strings, lists and string-keyed dicts.  A Folder stores such values as
    they come, with no check of their type. *)

#[warnings="-register-all"]
Inductive pyval : Type :=
  | PNone
  | PBool (b : bool)
  | PInt (n : Z)
  | PFloat (x : spec_float)
  | PStr (s : string)
  | PList (l : list pyval)
  | PDict (d : gmap string pyval).

(** ** Objects and the heap *)

Abbreviation loc := positive.

(** The account is an external collaborator: all that is read of it is its
    [access_token]. *)
Record Account := { access_token : string }.

(** The attributes of a [Folder], in the order [__init__] assigns them. *)
Record Folder := mkFolder {
  account : loc;
  parent_id : pyval;
  child_folder_count : pyval;
  unread_count : pyval;
  total_items : pyval;
  name : pyval;
  id : pyval
}.

Inductive object :=
  | OAccount (a : Account)
  | OFolder (f : Folder).

(** ** The transport *)

Inductive http_method := GET | POST | PATCH | DELETE.

Record request := {
  req_method : http_method;
  req_url : string;
  req_headers : gmap string string;
  req_data : option string
}.

(** A response: its [status_code], and what [r.json()] gives on its body
    ([None] when the body is not JSON). *)
Record response := {
  status_code : Z;
  json_body : option pyval
}.

Inductive event :=
  | EvRequest (q : request)
  | EvJson (r : response).

Record world := {
  heap : gmap loc object;
  inbox : list response;
  trace : list event
}.

(** ** Exceptions and the monad of methods *)

Inductive exn :=
  | AuthError (msg : string)
  | KeyError (k : string)
  | TypeError
  | AttributeError
  | JSONDecodeError
  | ConnectionError.

Definition M (A : Type) : Type := world → world * (exn + A).

Global Instance M_ret : MRet M := λ A a w, (w, inr a).

Global Instance M_bind : MBind M := λ A B k m w,
  match m w with
  | (w', inr a) => k a w'
  | (w', inl e) => (w', inl e)
  end.

Definition raise {A} (e : exn) : M A := λ w, (w, inl e).

Definition lift {A} (x : exn + A) : M A := λ w, (w, x).

Definition log (e : event) : M unit := λ w,
  ({| heap := heap w; inbox := inbox w; trace := trace w ++ [e] |}, inr ()).

(** [self.<attr>] on a Folder instance. *)
Definition attr {A} (proj : Folder → A) (self : loc) : M A := λ w,
  match heap w !! self with
  | Some (OFolder f) => (w, inr (proj f))
  | _ => (w, inl AttributeError)
  end.

(** [account.access_token]. *)
Definition get_access_token (a : loc) : M string := λ w,
  match heap w !! a with
  | Some (OAccount acc) => (w, inr (access_token acc))
  | _ => (w, inl AttributeError)
  end.

(** [s + v] for a [str] [s]: only a [str] can be added to it. *)
Definition str_add (s : string) (v : pyval) : M string :=
  match v with
  | PStr t => mret (s +:+ t)
  | _ => raise TypeError
  end.

(** [v[k]] for a string key. *)
Definition getitem (v : pyval) (k : string) : M pyval :=
  match v with
  | PDict d =>
      match d !! k with
      | Some x => mret x
      | None => raise (KeyError k)
      end
  | _ => raise TypeError
  end.

(** The items [for x in v] goes through. *)
Definition iter (v : pyval) : M (list pyval) :=
  match v with
  | PList l => mret l
  | PStr s => mret ((λ c, PStr (String c EmptyString)) <$> list_ascii_of_string s)
  | PDict d => mret (PStr <$> (map_to_list d).*1)
  | _ => raise TypeError
  end.

(** One request: it is recorded, and the next response of the server is
    taken; no response at all is a failure of the transport. *)
Definition receive : M response := λ w,
  match inbox w with
  | r :: rest => ({| heap := heap w; inbox := rest; trace := trace w |}, inr r)
  | [] => (w, inl ConnectionError)
  end.

Definition send (q : request) : M response :=
  log (EvRequest q);; receive.

Definition requests_get (url : string) (headers : gmap string string) : M response :=
  send {| req_method := GET; req_url := url; req_headers := headers; req_data := None |}.

Definition requests_delete (url : string) (headers : gmap string string) : M response :=
  send {| req_method := DELETE; req_url := url; req_headers := headers; req_data := None |}.

Definition requests_patch (url : string) (headers : gmap string string) (data : string)
  : M response :=
  send {| req_method := PATCH; req_url := url; req_headers := headers; req_data := Some data |}.

Definition requests_post (url : string) (headers : gmap string string) (data : string)
  : M response :=
  send {| req_method := POST; req_url := url; req_headers := headers; req_data := Some data |}.

(** [r.json()]. *)
Definition json (r : response) : M pyval :=
  log (EvJson r);;
  match json_body r with
  | Some v => mret v
  | None => raise JSONDecodeError
  end.

(** ** String constants *)

Definition dquote : string := String "034"%char EmptyString.

Definition base_url : string := "https://outlook.office.com/api/v2.0/me/MailFolders/".

(** The payload of a rename or a creation, up to and including the quote
    that opens the value of [DisplayName]: an opening brace, a space, the
    quoted key, a colon, a space, a quote. *)
Definition display_name_open : string :=
  "{ " +:+ dquote +:+ "DisplayName" +:+ dquote +:+ ": " +:+ dquote.

(** The same for [DestinationId], the payload of a move or a copy. *)
Definition destination_id_open : string :=
  "{ " +:+ dquote +:+ "DestinationId" +:+ dquote +:+ ": " +:+ dquote.

(** The end of every payload: the quote that closes the value, and a
    closing brace. *)
Definition payload_close : string := dquote +:+ "}".

(** ['Access Token Error, Received ' + str(status) + ' from Outlook REST Endpoint'] *)
Definition auth_message (status : Z) : string :=
  "Access Token Error, Received " +:+ pretty status +:+ " from Outlook REST Endpoint".

(** ** The class [Folder] *)

(** [Folder(...)]: a new instance, with the arguments of [__init__]. *)
Definition Folder_new (f : Folder) : M loc := λ w,
  let l := fresh (dom (heap w)) in
  ({| heap := <[l := OFolder f]> (heap w); inbox := inbox w; trace := trace w |}, inr l).

Definition Folder_init (account : loc)
    (folder_id folder_name parent_id child_folder_count unread_count total_items : pyval)
  : M loc :=
  Folder_new {| account := account; parent_id := parent_id;
                child_folder_count := child_folder_count;
                unread_count := unread_count; total_items := total_items;
                name := folder_name; id := folder_id |}.

Definition headers (self : loc) : M (gmap string string) :=
  a ← attr account self;
  token ← get_access_token a;
  mret ({[ "Authorization" := "Bearer " +:+ token;
           "Content-Type" := "application/json" ]} : gmap string string).

Definition _json_to_folder (account : loc) (json_value : pyval) : M loc :=
  v_id ← getitem json_value "Id";
  v_name ← getitem json_value "DisplayName";
  v_parent ← getitem json_value "ParentFolderId";
  v_children ← getitem json_value "ChildFolderCount";
  v_unread ← getitem json_value "UnreadItemCount";
  v_total ← getitem json_value "TotalItemCount";
  Folder_init account v_id v_name v_parent v_children v_unread v_total.

Definition _json_to_folders (account : loc) (json_value : pyval) : M (list loc) :=
  value ← getitem json_value "value";
  folders ← iter value;
  mapM (_json_to_folder account) folders.

(** [399 < status < 452], the test that every method but [messages] makes
    of the status of the response. *)
Definition in_error_band (status : Z) : bool :=
  (399 <? status) && (status <? 452).

Definition rename_folder (self : loc) (new_folder_name : string) : M loc :=
  headers ← headers self;
  self_id ← attr id self;
  endpoint ← str_add base_url self_id;
  let payload := display_name_open +:+ new_folder_name +:+ payload_close in
  r ← requests_patch endpoint headers payload;
  if in_error_band (status_code r) then
    raise (AuthError (auth_message (status_code r)))
  else
    return_folder ← json r;
    a ← attr account self;
    _json_to_folder a return_folder.

Definition get_subfolders (self : loc) : M (list loc) :=
  headers ← headers self;
  self_id ← attr id self;
  endpoint ← str_add base_url self_id;
  let endpoint := endpoint +:+ "/childfolders" in
  r ← requests_get endpoint headers;
  if in_error_band (status_code r) then
    raise (AuthError (auth_message (status_code r)))
  else
    a ← attr account self;
    j ← json r;
    _json_to_folders a j.

Definition delete_folder (self : loc) : M unit :=
  headers ← headers self;
  self_id ← attr id self;
  endpoint ← str_add base_url self_id;
  r ← requests_delete endpoint headers;
  if in_error_band (status_code r) then
    raise (AuthError (auth_message (status_code r)))
  else
    mret ().

Definition move_folder (self : loc) (destination_folder : string) : M loc :=
  headers ← headers self;
  self_id ← attr id self;
  endpoint ← str_add base_url self_id;
  let endpoint := endpoint +:+ "/move" in
  let payload := destination_id_open +:+ destination_folder +:+ payload_close in
  r ← requests_post endpoint headers payload;
  if in_error_band (status_code r) then
    raise (AuthError (auth_message (status_code r)))
  else
    return_folder ← json r;
    a ← attr account self;
    _json_to_folder a return_folder.

Definition copy_folder (self : loc) (destination_folder : string) : M loc :=
  headers ← headers self;
  self_id ← attr id self;
  endpoint ← str_add base_url self_id;
  let endpoint := endpoint +:+ "/copy" in
  let payload := destination_id_open +:+ destination_folder +:+ payload_close in
  r ← requests_post endpoint headers payload;
  if in_error_band (status_code r) then
    raise (AuthError (auth_message (status_code r)))
  else
    return_folder ← json r;
    a ← attr account self;
    _json_to_folder a return_folder.

Definition create_child_folder (self : loc) (folder_name : string) : M loc :=
  headers ← headers self;
  self_id ← attr id self;
  endpoint ← str_add base_url self_id;
  let endpoint := endpoint +:+ "/childfolders" in
  let payload := display_name_open +:+ folder_name +:+ payload_close in
  r ← requests_post endpoint headers payload;
  if in_error_band (status_code r) then
    raise (AuthError (auth_message (status_code r)))
  else
    return_folder ← json r;
    a ← attr account self;
    _json_to_folder a return_folder.

(** [Message._json_to_messages] belongs to the message layer, which is not
    part of this module: [messages] is given it as a parameter. *)
Section Messages.
Context {Message : Type}.
Variable json_to_messages : loc → pyval → exn + list Message.

Definition messages (self : loc) : M (list Message) :=
  headers ← headers self;
  self_id ← attr id self;
  endpoint ← str_add base_url self_id;
  let endpoint := endpoint +:+ "/messages" in
  r ← requests_get endpoint headers;
  if (status_code r =? 401) then
    raise (AuthError "Access Token Error, Received 401 from Outlook REST Endpoint")
  else
    a ← attr account self;
    j ← json r;
    lift (json_to_messages a j).
End Messages.

(** ** Printing a Folder

    [__str__] returns [self.name] as it is; [str(x)] is what [__str__]
    returns when that is a [str], and a [TypeError] when it is not;
    [__repr__] returns [str(self)]. *)

Definition __str__ (self : loc) : M pyval :=
  attr name self.

Definition str (self : loc) : M string :=
  v ← __str__ self;
  match v with
  | PStr s => mret s
  | _ => raise TypeError
  end.

Definition __repr__ (self : loc) : M string :=
  str self.

(** ** JSON texts

    The methods build their request bodies as strings, and the server is
    to read them as JSON.  What a JSON text is, is not code of this
    module: it is the grammar of RFC 8259, written here as a recognizer.
    [scan] reads one value, the members of an object or the elements of an
    array, and gives what is left of the text; every call it makes to
    itself is on a shorter text, so the length of the text is fuel enough.
    A text is [valid] when some amount of fuel reads all of it. *)

Module Json.
Local Open Scope char_scope.

Definition is_ws (c : ascii) : bool :=
  match c with
  | " " | "009" | "010" | "013" => true
  | _ => false
  end.

Definition is_digit (c : ascii) : bool :=
  match c with
  | "0" | "1" | "2" | "3" | "4" | "5" | "6" | "7" | "8" | "9" => true
  | _ => false
  end.

Definition is_hex (c : ascii) : bool :=
  is_digit c ||
  match c with
  | "a" | "b" | "c" | "d" | "e" | "f" | "A" | "B" | "C" | "D" | "E" | "F" => true
  | _ => false
  end.

Definition is_escape (c : ascii) : bool :=
  match c with
  | "034" | "\" | "/" | "b" | "f" | "n" | "r" | "t" => true
  | _ => false
  end.

Definition is_control (c : ascii) : bool := (N_of_ascii c <? 32)%N.

Fixpoint skip_ws (s : list ascii) : list ascii :=
  match s with
  | c :: s' => if is_ws c then skip_ws s' else s
  | [] => []
  end.

Fixpoint skip_digits (s : list ascii) : list ascii :=
  match s with
  | c :: s' => if is_digit c then skip_digits s' else s
  | [] => []
  end.

Fixpoint scan_string (s : list ascii) : option (list ascii) :=
  match s with
  | [] => None
  | "034" :: s' => Some s'
  | "\" :: s' =>
      match s' with
      | "u" :: h1 :: h2 :: h3 :: h4 :: s'' =>
          if is_hex h1 && is_hex h2 && is_hex h3 && is_hex h4
          then scan_string s'' else None
      | e :: s'' => if is_escape e then scan_string s'' else None
      | [] => None
      end
  | c :: s' => if is_control c then None else scan_string s'
  end.

Definition scan_digits (s : list ascii) : option (list ascii) :=
  match s with
  | c :: s' => if is_digit c then Some (skip_digits s') else None
  | [] => None
  end.

Definition scan_int (s : list ascii) : option (list ascii) :=
  match s with
  | "0" :: s' => Some s'
  | _ => scan_digits s
  end.

Definition scan_frac (s : list ascii) : option (list ascii) :=
  match s with
  | "." :: s' => scan_digits s'
  | _ => Some s
  end.

Definition scan_exp (s : list ascii) : option (list ascii) :=
  match s with
  | "e" :: s' | "E" :: s' =>
      match s' with
      | "+" :: s'' | "-" :: s'' => scan_digits s''
      | _ => scan_digits s'
      end
  | _ => Some s
  end.

Definition scan_number (s : list ascii) : option (list ascii) :=
  s1 ← scan_int (match s with "-" :: s' => s' | _ => s end);
  s2 ← scan_frac s1;
  scan_exp s2.

Definition scan_literal (lit : string) (s : list ascii) : option (list ascii) :=
  let l := list_ascii_of_string lit in
  if decide (take (length l) s = l) then Some (drop (length l) s) else None.

Inductive mode := Value | Members | Elements.

Fixpoint scan (fuel : nat) (m : mode) (s : list ascii) : option (list ascii) :=
  match fuel with
  | O => None
  | S n =>
      match m with
      | Value =>
          skip_ws <$>
          match skip_ws s with
          | "{" :: s1 =>
              match skip_ws s1 with
              | "}" :: s2 => Some s2
              | _ => scan n Members s1
              end
          | "[" :: s1 =>
              match skip_ws s1 with
              | "]" :: s2 => Some s2
              | _ => scan n Elements s1
              end
          | "034" :: s1 => scan_string s1
          | "t" :: _ => scan_literal "true" (skip_ws s)
          | "f" :: _ => scan_literal "false" (skip_ws s)
          | "n" :: _ => scan_literal "null" (skip_ws s)
          | s0 => scan_number s0
          end
      | Members =>
          match skip_ws s with
          | "034" :: s1 =>
              s2 ← scan_string s1;
              match skip_ws s2 with
              | ":" :: s3 =>
                  s4 ← scan n Value s3;
                  match s4 with
                  | "," :: s5 => scan n Members s5
                  | "}" :: s5 => Some s5
                  | _ => None
                  end
              | _ => None
              end
          | _ => None
          end
      | Elements =>
          s1 ← scan n Value s;
          match s1 with
          | "," :: s2 => scan n Elements s2
          | "]" :: s2 => Some s2
          | _ => None
          end
      end
  end.

Definition valid (s : string) : Prop :=
  ∃ fuel, scan fuel Value (list_ascii_of_string s) = Some [].

Definition validb (s : string) : bool :=
  bool_decide (scan (S (String.length s)) Value (list_ascii_of_string s) = Some []).
End Json.

(** ** Vocabulary of the statements *)

(** The six keys that [_json_to_folder] reads, in the order it reads them. *)
Definition folder_keys : list string :=
  ["Id"; "DisplayName"; "ParentFolderId"; "ChildFolderCount";
   "UnreadItemCount"; "TotalItemCount"].

(** The requests sent and the bodies decoded along a trace. *)
Definition requests_of (t : list event) : list request :=
  omap (λ e, match e with EvRequest q => Some q | EvJson _ => None end) t.

Definition decodings_of (t : list event) : list response :=
  omap (λ e, match e with EvJson r => Some r | EvRequest _ => None end) t.

(** The world once [q] has been sent and answered, [rest] being the
    responses still to come. *)
Definition sent (w : world) (q : request) (rest : list response) : world :=
  {| heap := heap w; inbox := rest; trace := trace w ++ [EvRequest q] |}.

(** The same world once the body of the response [r] has been decoded too. *)
Definition decoded (w : world) (q : request) (r : response) (rest : list response) : world :=
  {| heap := heap w; inbox := rest; trace := trace w ++ [EvRequest q; EvJson r] |}.

(** [self] is a Folder whose [id] is the string [i] and whose account holds
    [token]. *)
Definition folder_at (w : world) (self : loc) (f : Folder) (i token : string) : Prop :=
  heap w !! self = Some (OFolder f) ∧
  id f = PStr i ∧
  heap w !! account f = Some (OAccount {| access_token := token |}).

(** A method sends [q], is answered, raises [AuthError] for [status] and
    does nothing else: no body is decoded, no object is made. *)
Definition raises_auth_error {A} (m : M A) (w : world) (status : Z) : Prop :=
  (∃ q rest, m w = (sent w q rest, inl (AuthError (auth_message status)))) ∧
  decodings_of (trace (m w).1) = decodings_of (trace w).

(** A method decodes the body of the response [r], and no other body. *)
Definition decodes_body {A} (m : M A) (w : world) (r : response) : Prop :=
  decodings_of (trace (m w).1) = decodings_of (trace w) ++ [r].

(** A method decodes the body of [r] and returns a Folder that was not
    there before, with the attributes [F]. *)
Definition returns_folder_of (m : M loc) (w : world) (r : response) (F : Folder) : Prop :=
  decodes_body m w r ∧
  ∃ w' l, m w = (w', inr l) ∧ heap w !! l = None ∧ heap w' !! l = Some (OFolder F).

(** The single-folder rule: in every world, [_json_to_folder] makes of
    [j] a new instance with the attributes [F]. *)
Definition decodes_to (a : loc) (j : pyval) (F : Folder) : Prop :=
  ∀ w, _json_to_folder a j w = Folder_new F w.

(** A method returns a Folder that was not there before, with the
    attributes [F], and every object that was there is as it was: the
    instance [self] it is invoked on among them, attribute for attribute. *)
Definition returns_new_folder (m : M loc) (w : world) (self : loc) (F : Folder) : Prop :=
  ∃ w' l,
    m w = (w', inr l) ∧
    l ≠ self ∧
    heap w !! l = None ∧
    heap w' !! l = Some (OFolder F) ∧
    ∀ l0 o, heap w !! l0 = Some o → heap w' !! l0 = Some o.

(** However a method ends, the object at [self] is as it was. *)
Definition leaves_untouched {A} (m : M A) (self : loc) : Prop :=
  ∀ w o, heap w !! self = Some o → heap (m w).1 !! self = Some o.

(** A method, run in [w], sends the request [q] and no other. *)
Definition sends {A} (m : M A) (w : world) (q : request) : Prop :=
  requests_of (trace (m w).1) = requests_of (trace w) ++ [q].

(** A method sends one request and its headers are [h]. *)
Definition carries_headers {A} (m : M A) (w : world) (h : gmap string string) : Prop :=
  ∃ q, sends m w q ∧ req_headers q = h.

(** A method sends one request, by [method] to [url]. *)
Definition requests_to {A} (m : M A) (w : world) (method : http_method) (url : string)
  : Prop :=
  ∃ q, sends m w q ∧ req_method q = method ∧ req_url q = url.

(** A method sends one request and its body is [data]. *)
Definition posts {A} (m : M A) (w : world) (data : string) : Prop :=
  ∃ q, sends m w q ∧ req_data q = Some data.

(** The account [a] is given the access token [token]. *)
Definition set_token (a : loc) (token : string) (w : world) : world :=
  {| heap := <[a := OAccount {| access_token := token |}]> (heap w);
     inbox := inbox w; trace := trace w |}.

(** A method ends in a [KeyError] for one of [keys] that [d] lacks, and
    has made no object. *)
Definition raises_key_error {A} (m : M A) (w : world)
    (d : gmap string pyval) (keys : list string) : Prop :=
  ∃ w' k, m w = (w', inl (KeyError k)) ∧ k ∈ keys ∧ d !! k = None ∧ heap w' = heap w.

(** A JSON object with the six fields of a folder. *)
Definition folder_json (j : pyval) : Prop :=
  ∃ d, j = PDict d ∧ ∀ k, k ∈ folder_keys → is_Some (d !! k).

(** The instances [ls] of the world [w] are the folders of the JSON items
    [fs]: as many, distinct, and the n-th instance is what the
    single-folder rule makes of the n-th item. *)
Definition folders_of (a : loc) (w : world) (fs : list pyval) (ls : list loc) : Prop :=
  length ls = length fs ∧
  NoDup ls ∧
  Forall2 (λ j l, ∃ F, decodes_to a j F ∧ heap w !! l = Some (OFolder F)) fs ls.

(** The headers that [headers] builds for a token. *)
Definition bearer_headers (token : string) : gmap string string :=
  {[ "Authorization" := "Bearer " +:+ token; "Content-Type" := "application/json" ]}.

(** Relations between the world before and after a method. *)
Definition heap_grows (w w' : world) : Prop := heap w ⊆ heap w'.

Definition same_requests (w w' : world) : Prop :=
  requests_of (trace w') = requests_of (trace w).

Definition stable (R : relation world) {A} (m : M A) : Prop :=
  ∀ w, R w (m w).1.

(** The heap after a method is the heap before it. *)
Definition same_heap (w w' : world) : Prop := heap w' = heap w.

(** A method that ends in an exception has made no object. *)
Definition makes_nothing_on_error {A} (m : M A) : Prop :=
  ∀ w, match (m w).2 with
       | inl _ => heap (m w).1 = heap w
       | inr _ => True
       end.

(** A method ends in the exception [e] before it has sent anything: the
    world is as it was. *)
Definition raises_unsent {A} (m : M A) (w : world) (e : exn) : Prop :=
  m w = (w, inl e).

(** A method sends its request, gets no response, and ends in the failure
    of the transport. *)
Definition fails_in_transport {A} (m : M A) (w : world) : Prop :=
  ∃ q, m w = (sent w q [], inl ConnectionError).

(** A method sends its request, decodes the body of the response [r] and
    ends in the exception [e], having made no object. *)
Definition raises_decoding {A} (m : M A) (w : world) (r : response)
    (rest : list response) (e : exn) : Prop :=
  ∃ q, m w = (decoded w q r rest, inl e).

Definition backslash : string := String "092"%char EmptyString.

(** A method sends one request, and its body is, or is not, a JSON text. *)
Definition posts_json {A} (m : M A) (w : world) : Prop :=
  ∃ body, posts m w body ∧ Json.valid body.

Definition posts_no_json {A} (m : M A) (w : world) : Prop :=
  ∃ body, posts m w body ∧ ¬ Json.valid body.

(** The values other than lists that a [for] goes through without a
    single step: the empty string and the empty dict. *)
Definition iterates_nothing (v : pyval) : bool :=
  match v with
  | PStr EmptyString => true
  | PDict m => bool_decide (size m = 0%nat)
  | _ => false
  end.

(** The characters that a JSON string takes as they are: all but the
    quote, the backslash and the control characters. *)
Definition plain_char (c : ascii) : bool :=
  negb (Ascii.eqb c "034") && negb (Ascii.eqb c "\") && negb (Json.is_control c).

Definition plain (s : string) : Prop :=
  Forall (λ c, plain_char c = true) (list_ascii_of_string s).

(** ** What the methods do with a response

    The four methods that return a Folder end in the same way, and so do
    the other three in theirs: these are those ends, word for word, to
    state what follows the request apart from what precedes it. *)

Definition folder_reply (self : loc) (r : response) : M loc :=
  if in_error_band (status_code r) then
    raise (AuthError (auth_message (status_code r)))
  else
    return_folder ← json r;
    a ← attr account self;
    _json_to_folder a return_folder.

Definition subfolders_reply (self : loc) (r : response) : M (list loc) :=
  if in_error_band (status_code r) then
    raise (AuthError (auth_message (status_code r)))
  else
    a ← attr account self;
    j ← json r;
    _json_to_folders a j.

Definition delete_reply (r : response) : M unit :=
  if in_error_band (status_code r) then
    raise (AuthError (auth_message (status_code r)))
  else
    mret ().

Definition messages_reply {Message : Type}
    (json_to_messages : loc → pyval → exn + list Message)
    (self : loc) (r : response) : M (list Message) :=
  if (status_code r =? 401) then
    raise (AuthError "Access Token Error, Received 401 from Outlook REST Endpoint")
  else
    a ← attr account self;
    j ← json r;
    lift (json_to_messages a j).

(** ** Sample data *)

Definition sample_folder : Folder :=
  {| account := 1%positive; parent_id := PStr "root"; child_folder_count := PInt 0;
     unread_count := PInt 3; total_items := PInt 7; name := PStr "Inbox";
     id := PStr "AAA" |}.

Definition sample_heap : gmap loc object :=
  {[ 1%positive := OAccount {| access_token := "secret" |};
     2%positive := OFolder sample_folder ]}.

Definition sample_world (answers : list response) : world :=
  {| heap := sample_heap; inbox := answers; trace := [] |}.

Definition archive_json : gmap string pyval :=
  {[ "Id" := PStr "AAA"; "DisplayName" := PStr "Archive";
     "ParentFolderId" := PStr "root"; "ChildFolderCount" := PInt 0;
     "UnreadItemCount" := PInt 0; "TotalItemCount" := PInt 0 ]}.

Definition drafts_json : gmap string pyval :=
  {[ "Id" := PStr "BBB"; "DisplayName" := PStr "Drafts";
     "ParentFolderId" := PStr "AAA"; "ChildFolderCount" := PInt 0;
     "UnreadItemCount" := PInt 1; "TotalItemCount" := PInt 2;
     "WellKnownName" := PStr "drafts" ]}.

Definition answer (status : Z) (body : pyval) : response :=
  {| status_code := status; json_body := Some body |}.

Definition archive_folder : Folder :=
  {| account := 1%positive; parent_id := PStr "root"; child_folder_count := PInt 0;
     unread_count := PInt 0; total_items := PInt 0; name := PStr "Archive";
     id := PStr "AAA" |}.

Definition world_200 : world := sample_world [answer 200 (PDict archive_json)].

(** A folder object without its [ParentFolderId] and its counts, and a
    list payload whose key is not [value]. *)
Definition incomplete_json : gmap string pyval :=
  {[ "Id" := PStr "AAA"; "DisplayName" := PStr "Archive" ]}.

Definition misnamed_list_json : gmap string pyval :=
  {[ "values" := PList [PDict archive_json] ]}.

Definition world_incomplete : world := sample_world [answer 200 (PDict incomplete_json)].

Definition world_misnamed : world := sample_world [answer 200 (PDict misnamed_list_json)].

Definition folders_json : pyval :=
  PDict {[ "value" := PList [PDict archive_json; PDict drafts_json] ]}.

Definition messages_json : pyval :=
  PDict {[ "value" := PList [PStr "m1"; PStr "m2"] ]}.

Definition world_500 : world := sample_world [answer 500 (PDict archive_json)].

Definition world_399 : world := sample_world [answer 399 (PDict archive_json)].

Definition world_452 : world := sample_world [answer 452 (PDict archive_json)].

Definition world_452_list : world := sample_world [answer 452 folders_json].

Definition world_404m : world := sample_world [answer 404 messages_json].

(** A Folder whose [id] came as a number, and a Folder that was given
    itself as account. *)
Definition numeric_id_folder : Folder :=
  {| account := 1%positive; parent_id := PStr "root"; child_folder_count := PInt 0;
     unread_count := PInt 0; total_items := PInt 0; name := PStr "Inbox";
     id := PInt 42 |}.

Definition world_numeric_id : world :=
  {| heap := {[ 1%positive := OAccount {| access_token := "secret" |};
                2%positive := OFolder numeric_id_folder ]};
     inbox := [answer 200 (PDict archive_json)]; trace := [] |}.

Definition self_owned_folder : Folder :=
  {| account := 2%positive; parent_id := PStr "root"; child_folder_count := PInt 0;
     unread_count := PInt 0; total_items := PInt 0; name := PStr "Inbox";
     id := PStr "AAA" |}.

Definition world_folder_as_account : world :=
  {| heap := {[ 2%positive := OFolder self_owned_folder ]};
     inbox := [answer 200 (PDict archive_json)]; trace := [] |}.

(** A response whose body is not JSON. *)
Definition error_page (status : Z) : response :=
  {| status_code := status; json_body := None |}.

(** A list payload whose second item is incomplete. *)
Definition bad_item_json : pyval :=
  PDict {[ "value" := PList [PDict archive_json; PDict incomplete_json; PDict drafts_json] ]}.

Definition world_bad_item : world := sample_world [answer 200 bad_item_json].

(** The answer to a change: the folder under another [Id]. *)
Definition moved_json : gmap string pyval :=
  {[ "Id" := PStr "CCC"; "DisplayName" := PStr "Moved";
     "ParentFolderId" := PStr "BBB"; "ChildFolderCount" := PInt 0;
     "UnreadItemCount" := PInt 0; "TotalItemCount" := PInt 0 ]}.

Definition moved_folder : Folder :=
  {| account := 1%positive; parent_id := PStr "BBB"; child_folder_count := PInt 0;
     unread_count := PInt 0; total_items := PInt 0; name := PStr "Moved";
     id := PStr "CCC" |}.

Definition world_moved : world :=
  sample_world [answer 201 (PDict moved_json); answer 204 PNone].

(** A message layer to run [messages] with: a message is kept as the JSON
    it comes from, and the list of them is under the key [value]. *)
Definition sample_messages (a : loc) (j : pyval) : exn + list pyval :=
  match j with
  | PDict d =>
      match d !! "value" with
      | Some (PList l) => inr l
      | Some _ => inl TypeError
      | None => inl (KeyError "value")
      end
  | _ => inl TypeError
  end.

(** * Properties *)

(** ** Running the primitives *)

Lemma bind_ok {A B} (m : M A) (k : A → M B) w w' a :
  m w = (w', inr a) → (m ≫= k) w = k a w'.
Proof. intros H. unfold mbind, M_bind. by rewrite H. Qed.

Lemma bind_raise {A B} (m : M A) (k : A → M B) w w' e :
  m w = (w', inl e) → (m ≫= k) w = (w', inl e).
Proof. intros H. unfold mbind, M_bind. by rewrite H. Qed.

Lemma attr_ok {A} (proj : Folder → A) w self f :
  heap w !! self = Some (OFolder f) → attr proj self w = (w, inr (proj f)).
Proof. intros H. unfold attr. by rewrite H. Qed.

Lemma headers_ok w self f token :
  heap w !! self = Some (OFolder f) →
  heap w !! account f = Some (OAccount {| access_token := token |}) →
  headers self w =
    (w, inr (bearer_headers token)).
Proof.
  intros Hself Hacc. unfold headers.
  rewrite (bind_ok _ _ _ _ _ (attr_ok account _ _ _ Hself)).
  unfold mbind, M_bind, get_access_token. by rewrite Hacc.
Qed.

Lemma send_ok q w r rest :
  inbox w = r :: rest → send q w = (sent w q rest, inr r).
Proof. intros H. unfold send, sent, mbind, M_bind, log, receive. simpl. by rewrite H. Qed.

Lemma send_fail q w :
  inbox w = [] → send q w = (sent w q [], inl ConnectionError).
Proof.
  intros H. unfold send, sent, mbind, M_bind, log, receive. simpl. rewrite H.
  done.
Qed.

(** ** Every method is a request followed by the handling of the response *)

Section Requests.
Context (w : world) (self : loc) (f : Folder) (i token : string).
Hypothesis Hself : folder_at w self f i token.

Lemma prelude {A} (k : gmap string string → string → M A) :
  (headers ← headers self;
   self_id ← attr id self;
   endpoint ← str_add base_url self_id;
   k headers endpoint) w
  = k (bearer_headers token) (base_url +:+ i) w.
Proof.
  destruct Hself as (Hf & Hid & Hacc).
  rewrite (bind_ok _ _ _ _ _ (headers_ok _ _ _ _ Hf Hacc)).
  rewrite (bind_ok _ _ _ _ _ (attr_ok id _ _ _ Hf)).
  by rewrite Hid.
Qed.

Lemma rename_folder_eq new_folder_name :
  rename_folder self new_folder_name w =
  (send {| req_method := PATCH; req_url := base_url +:+ i;
           req_headers := bearer_headers token;
           req_data := Some (display_name_open +:+ new_folder_name +:+ payload_close) |}
     ≫= folder_reply self) w.
Proof. unfold rename_folder. by rewrite prelude. Qed.

Lemma get_subfolders_eq :
  get_subfolders self w =
  (send {| req_method := GET; req_url := base_url +:+ i +:+ "/childfolders";
           req_headers := bearer_headers token; req_data := None |}
     ≫= subfolders_reply self) w.
Proof. unfold get_subfolders. by rewrite prelude. Qed.

Lemma delete_folder_eq :
  delete_folder self w =
  (send {| req_method := DELETE; req_url := base_url +:+ i;
           req_headers := bearer_headers token; req_data := None |}
     ≫= delete_reply) w.
Proof. unfold delete_folder. by rewrite prelude. Qed.

Lemma move_folder_eq destination_folder :
  move_folder self destination_folder w =
  (send {| req_method := POST; req_url := base_url +:+ i +:+ "/move";
           req_headers := bearer_headers token;
           req_data := Some (destination_id_open +:+ destination_folder +:+ payload_close) |}
     ≫= folder_reply self) w.
Proof. unfold move_folder. by rewrite prelude. Qed.

Lemma copy_folder_eq destination_folder :
  copy_folder self destination_folder w =
  (send {| req_method := POST; req_url := base_url +:+ i +:+ "/copy";
           req_headers := bearer_headers token;
           req_data := Some (destination_id_open +:+ destination_folder +:+ payload_close) |}
     ≫= folder_reply self) w.
Proof. unfold copy_folder. by rewrite prelude. Qed.

Lemma create_child_folder_eq folder_name :
  create_child_folder self folder_name w =
  (send {| req_method := POST; req_url := base_url +:+ i +:+ "/childfolders";
           req_headers := bearer_headers token;
           req_data := Some (display_name_open +:+ folder_name +:+ payload_close) |}
     ≫= folder_reply self) w.
Proof. unfold create_child_folder. by rewrite prelude. Qed.

Lemma messages_eq {Message} (json_to_messages : loc → pyval → exn + list Message) :
  messages json_to_messages self w =
  (send {| req_method := GET; req_url := base_url +:+ i +:+ "/messages";
           req_headers := bearer_headers token; req_data := None |}
     ≫= messages_reply json_to_messages self) w.
Proof. unfold messages. by rewrite prelude. Qed.
End Requests.

(** ** What no method changes

    A relation between the world before and the world after that is
    reflexive and transitive, and that the primitives respect, is respected
    by whatever is made of them with [≫=]. *)

Global Instance heap_grows_preorder : PreOrder heap_grows.
Proof.
  split; unfold heap_grows.
  - by intros w.
  - intros w1 w2 w3 H12 H23. by etrans.
Qed.

Global Instance same_requests_preorder : PreOrder same_requests.
Proof.
  split; unfold same_requests.
  - by intros w.
  - intros w1 w2 w3 H12 H23. by rewrite H23.
Qed.

Section Stable.
Context (R : relation world) `{!PreOrder R}.

Lemma stable_ret {A} (a : A) : stable R (mret a).
Proof. by intros w. Qed.

Lemma stable_raise {A} e : stable R (@raise A e).
Proof. by intros w. Qed.

Lemma stable_lift {A} (x : exn + A) : stable R (lift x).
Proof. by intros w. Qed.

Lemma stable_bind {A B} (m : M A) (k : A → M B) :
  stable R m → (∀ a, stable R (k a)) → stable R (m ≫= k).
Proof.
  intros Hm Hk w. specialize (Hm w). unfold mbind, M_bind.
  destruct (m w) as [w1 [e|a]]; simpl in *; [done|].
  etrans; [exact Hm | apply Hk].
Qed.

Lemma stable_attr {A} (proj : Folder → A) self : stable R (attr proj self).
Proof. intros w. unfold attr. by repeat case_match. Qed.

Lemma stable_get_access_token a : stable R (get_access_token a).
Proof. intros w. unfold get_access_token. by repeat case_match. Qed.

Lemma stable_str_add s v : stable R (str_add s v).
Proof. destruct v; apply stable_ret || apply stable_raise. Qed.

Lemma stable_getitem v k : stable R (getitem v k).
Proof.
  destruct v; simpl; try apply stable_raise.
  destruct (d !! k); apply stable_ret || apply stable_raise.
Qed.

Lemma stable_iter v : stable R (iter v).
Proof. destruct v; apply stable_ret || apply stable_raise. Qed.

Lemma stable_headers self : stable R (headers self).
Proof.
  unfold headers. apply stable_bind; [apply stable_attr|]. intros a.
  apply stable_bind; [apply stable_get_access_token|]. intros t. apply stable_ret.
Qed.

Lemma stable_mapM {A B} (g : A → M B) l :
  (∀ x, stable R (g x)) → stable R (mapM g l).
Proof.
  intros Hg. induction l as [|x l IH]; simpl.
  - apply stable_ret.
  - apply stable_bind; [apply Hg|]. intros y.
    apply stable_bind; [apply IH|]. intros ys. apply stable_ret.
Qed.

(** Decoding a response and making Folders of it. *)
Hypothesis stable_json : ∀ r, stable R (json r).
Hypothesis stable_Folder_new : ∀ F, stable R (Folder_new F).

Lemma stable_json_to_folder a j : stable R (_json_to_folder a j).
Proof.
  unfold _json_to_folder, Folder_init.
  repeat (apply stable_bind; [apply stable_getitem|]; intros ?).
  apply stable_Folder_new.
Qed.

Lemma stable_json_to_folders a j : stable R (_json_to_folders a j).
Proof.
  unfold _json_to_folders.
  apply stable_bind; [apply stable_getitem|]. intros v.
  apply stable_bind; [apply stable_iter|]. intros l.
  apply stable_mapM. intros x. apply stable_json_to_folder.
Qed.

Lemma stable_folder_reply self r : stable R (folder_reply self r).
Proof.
  unfold folder_reply. case_match; [apply stable_raise|].
  apply stable_bind; [apply stable_json|]. intros j.
  apply stable_bind; [apply stable_attr|]. intros a.
  apply stable_json_to_folder.
Qed.

Lemma stable_subfolders_reply self r : stable R (subfolders_reply self r).
Proof.
  unfold subfolders_reply. case_match; [apply stable_raise|].
  apply stable_bind; [apply stable_attr|]. intros a.
  apply stable_bind; [apply stable_json|]. intros j.
  apply stable_json_to_folders.
Qed.

Lemma stable_delete_reply r : stable R (delete_reply r).
Proof. unfold delete_reply. case_match; [apply stable_raise|apply stable_ret]. Qed.

Lemma stable_messages_reply {Message}
    (json_to_messages : loc → pyval → exn + list Message) self r :
  stable R (messages_reply json_to_messages self r).
Proof.
  unfold messages_reply. case_match; [apply stable_raise|].
  apply stable_bind; [apply stable_attr|]. intros a.
  apply stable_bind; [apply stable_json|]. intros j.
  apply stable_lift.
Qed.

(** What precedes the request of a method. *)
Lemma stable_method {A} (k : gmap string string → string → M A) self :
  (∀ h e, stable R (k h e)) →
  stable R (headers ← headers self;
            self_id ← attr id self;
            endpoint ← str_add base_url self_id;
            k headers endpoint).
Proof.
  intros Hk.
  apply stable_bind; [apply stable_headers|]. intros h.
  apply stable_bind; [apply stable_attr|]. intros v.
  apply stable_bind; [apply stable_str_add|]. intros e. apply Hk.
Qed.
End Stable.

Lemma json_same_requests r : stable same_requests (json r).
Proof.
  intros w. unfold same_requests, json, mbind, M_bind, log, requests_of. simpl.
  case_match; simpl; by rewrite omap_app, app_nil_r.
Qed.

Lemma Folder_new_same_requests F : stable same_requests (Folder_new F).
Proof. by intros w. Qed.

Lemma json_heap_grows r : stable heap_grows (json r).
Proof.
  intros w. unfold heap_grows, json, mbind, M_bind, log. simpl. by case_match.
Qed.

Lemma fresh_loc w : heap w !! fresh (dom (heap w)) = None.
Proof. apply not_elem_of_dom, is_fresh. Qed.

Lemma Folder_new_heap_grows F : stable heap_grows (Folder_new F).
Proof. intros w. apply insert_subseteq, fresh_loc. Qed.

Lemma send_heap_grows q : stable heap_grows (send q).
Proof.
  intros w. unfold heap_grows, send, mbind, M_bind, log, receive. simpl.
  by case_match.
Qed.

(** No method changes an object that is already there, whatever the answer
    of the server and however the method ends. *)
Lemma folder_reply_heap self r : stable heap_grows (folder_reply self r).
Proof.
  apply stable_folder_reply; auto using json_heap_grows, Folder_new_heap_grows
    with typeclass_instances.
Qed.

Lemma folder_reply_quiet self r : stable same_requests (folder_reply self r).
Proof.
  apply stable_folder_reply; auto using json_same_requests, Folder_new_same_requests
    with typeclass_instances.
Qed.

Lemma subfolders_reply_quiet self r : stable same_requests (subfolders_reply self r).
Proof.
  apply stable_subfolders_reply; auto using json_same_requests, Folder_new_same_requests
    with typeclass_instances.
Qed.

Lemma delete_reply_quiet r : stable same_requests (delete_reply r).
Proof. apply stable_delete_reply; apply _. Qed.

Lemma messages_reply_quiet {Message}
    (json_to_messages : loc → pyval → exn + list Message) self r :
  stable same_requests (messages_reply json_to_messages self r).
Proof.
  apply stable_messages_reply; auto using json_same_requests with typeclass_instances.
Qed.

(** A request followed by a handling that sends nothing is one request. *)
Lemma send_then_quiet {A} (q : request) (k : response → M A) w :
  (∀ r, stable same_requests (k r)) → sends (send q ≫= k) w q.
Proof.
  intros Hk. unfold sends. destruct (inbox w) as [|r rest] eqn:Hin.
  - rewrite (bind_raise _ _ _ _ _ (send_fail q w Hin)). simpl.
    unfold requests_of. by rewrite omap_app.
  - rewrite (bind_ok _ _ _ _ _ (send_ok q w r rest Hin)).
    rewrite (Hk r (sent w q rest)). simpl.
    unfold requests_of. by rewrite omap_app.
Qed.

Lemma rename_folder_heap self n : stable heap_grows (rename_folder self n).
Proof.
  unfold rename_folder. apply stable_method; [apply _|]. intros h e. simpl.
  apply stable_bind; [apply _|apply send_heap_grows|apply folder_reply_heap].
Qed.

Lemma move_folder_heap self n : stable heap_grows (move_folder self n).
Proof.
  unfold move_folder. apply stable_method; [apply _|]. intros h e. simpl.
  apply stable_bind; [apply _|apply send_heap_grows|apply folder_reply_heap].
Qed.

Lemma copy_folder_heap self n : stable heap_grows (copy_folder self n).
Proof.
  unfold copy_folder. apply stable_method; [apply _|]. intros h e. simpl.
  apply stable_bind; [apply _|apply send_heap_grows|apply folder_reply_heap].
Qed.

Lemma create_child_folder_heap self n : stable heap_grows (create_child_folder self n).
Proof.
  unfold create_child_folder. apply stable_method; [apply _|]. intros h e. simpl.
  apply stable_bind; [apply _|apply send_heap_grows|apply folder_reply_heap].
Qed.

(** ** Decoding one folder *)

Ltac in_keys :=
  unfold folder_keys; repeat first [apply list_elem_of_here | apply list_elem_of_further].

Lemma json_to_folder_fields a d v_id v_name v_parent v_children v_unread v_total :
  d !! "Id" = Some v_id →
  d !! "DisplayName" = Some v_name →
  d !! "ParentFolderId" = Some v_parent →
  d !! "ChildFolderCount" = Some v_children →
  d !! "UnreadItemCount" = Some v_unread →
  d !! "TotalItemCount" = Some v_total →
  decodes_to a (PDict d)
    {| account := a; parent_id := v_parent; child_folder_count := v_children;
       unread_count := v_unread; total_items := v_total;
       name := v_name; id := v_id |}.
Proof.
  intros H1 H2 H3 H4 H5 H6 w.
  unfold _json_to_folder, getitem, mbind, M_bind, mret, M_ret.
  by rewrite H1, H2, H3, H4, H5, H6.
Qed.

Lemma folder_json_decodes a j : folder_json j → ∃ F, decodes_to a j F.
Proof.
  intros (d & -> & Hd).
  destruct (Hd "Id") as [v1 H1]; [in_keys|].
  destruct (Hd "DisplayName") as [v2 H2]; [in_keys|].
  destruct (Hd "ParentFolderId") as [v3 H3]; [in_keys|].
  destruct (Hd "ChildFolderCount") as [v4 H4]; [in_keys|].
  destruct (Hd "UnreadItemCount") as [v5 H5]; [in_keys|].
  destruct (Hd "TotalItemCount") as [v6 H6]; [in_keys|].
  eexists. by apply json_to_folder_fields.
Qed.

(** The first key that is looked up and not found is the one the
    [KeyError] names; nothing has been made by then. *)
Lemma json_to_folder_missing a d w :
  (∃ k, k ∈ folder_keys ∧ d !! k = None) →
  ∃ k, k ∈ folder_keys ∧ d !! k = None ∧
       _json_to_folder a (PDict d) w = (w, inl (KeyError k)).
Proof.
  intros (k0 & Hin & Hk0).
  unfold _json_to_folder, getitem, mbind, M_bind, mret, M_ret, raise.
  destruct (d !! "Id") eqn:H1; [|exists "Id"; split_and!; [in_keys|done..]].
  destruct (d !! "DisplayName") eqn:H2;
    [|exists "DisplayName"; split_and!; [in_keys|done..]].
  destruct (d !! "ParentFolderId") eqn:H3;
    [|exists "ParentFolderId"; split_and!; [in_keys|done..]].
  destruct (d !! "ChildFolderCount") eqn:H4;
    [|exists "ChildFolderCount"; split_and!; [in_keys|done..]].
  destruct (d !! "UnreadItemCount") eqn:H5;
    [|exists "UnreadItemCount"; split_and!; [in_keys|done..]].
  destruct (d !! "TotalItemCount") eqn:H6;
    [|exists "TotalItemCount"; split_and!; [in_keys|done..]].
  exfalso. unfold folder_keys in Hin.
  repeat (apply elem_of_cons in Hin as [->|Hin]; [congruence|]).
  by apply elem_of_nil in Hin.
Qed.

(** ** Handling a response *)

Lemma folder_reply_band self r w :
  in_error_band (status_code r) = true →
  folder_reply self r w = (w, inl (AuthError (auth_message (status_code r)))).
Proof. intros H. unfold folder_reply. by rewrite H. Qed.

Lemma folder_reply_success self f r w :
  heap w !! self = Some (OFolder f) →
  in_error_band (status_code r) = false →
  folder_reply self r w = (json r ≫= _json_to_folder (account f)) w.
Proof.
  intros Hself H. unfold folder_reply. rewrite H.
  unfold mbind, M_bind, json, log. simpl.
  destruct (json_body r); simpl; [|done].
  unfold attr. simpl. by rewrite Hself.
Qed.

Lemma in_error_band_true s : in_error_band s = true ↔ 400 ≤ s ≤ 451.
Proof. unfold in_error_band. rewrite andb_true_iff, !Z.ltb_lt. lia. Qed.

Lemma in_error_band_false s : in_error_band s = false ↔ s ≤ 399 ∨ 452 ≤ s.
Proof.
  unfold in_error_band. rewrite andb_false_iff, !Z.ltb_ge. lia.
Qed.

(** The message of an [AuthError] tells the status it was raised for. *)
Lemma list_ascii_app s t :
  list_ascii_of_string (s +:+ t) = list_ascii_of_string s ++ list_ascii_of_string t.
Proof. induction s as [|c s IH]; simpl; [done|]. by rewrite IH. Qed.

Lemma string_app_inv_tail s1 s2 t : s1 +:+ t = s2 +:+ t → s1 = s2.
Proof.
  intros H. apply (f_equal list_ascii_of_string) in H.
  rewrite !list_ascii_app in H. apply app_inv_tail in H.
  apply (f_equal string_of_list_ascii) in H.
  by rewrite !string_of_list_ascii_of_string in H.
Qed.

Lemma auth_message_inj s1 s2 : auth_message s1 = auth_message s2 → s1 = s2.
Proof.
  unfold auth_message. intros H.
  apply (inj (String.app _)) in H. apply string_app_inv_tail in H.
  by apply (inj pretty) in H.
Qed.

Lemma decodings_of_sent w q rest :
  decodings_of (trace (sent w q rest)) = decodings_of (trace w).
Proof. unfold decodings_of, sent. simpl. by rewrite omap_app, app_nil_r. Qed.

Lemma raises_auth_error_intro {A} (m : M A) w q rest s :
  m w = (sent w q rest, inl (AuthError (auth_message s))) →
  raises_auth_error m w s.
Proof.
  intros H. split; [by exists q, rest|]. rewrite H. apply decodings_of_sent.
Qed.

Lemma subfolders_reply_band self r w :
  in_error_band (status_code r) = true →
  subfolders_reply self r w = (w, inl (AuthError (auth_message (status_code r)))).
Proof. intros H. unfold subfolders_reply. by rewrite H. Qed.

Lemma delete_reply_band r w :
  in_error_band (status_code r) = true →
  delete_reply r w = (w, inl (AuthError (auth_message (status_code r)))).
Proof. intros H. unfold delete_reply. by rewrite H. Qed.

Lemma subfolders_reply_success self f r w :
  heap w !! self = Some (OFolder f) →
  in_error_band (status_code r) = false →
  subfolders_reply self r w = (json r ≫= _json_to_folders (account f)) w.
Proof.
  intros Hself H. unfold subfolders_reply. rewrite H.
  by rewrite (bind_ok _ _ _ _ _ (attr_ok account _ _ _ Hself)).
Qed.

Lemma delete_reply_success r w :
  in_error_band (status_code r) = false → delete_reply r w = (w, inr ()).
Proof. intros H. unfold delete_reply. by rewrite H. Qed.

Lemma messages_reply_401 {Message} (jm : loc → pyval → exn + list Message) self r w :
  status_code r = 401 →
  messages_reply jm self r w =
    (w, inl (AuthError "Access Token Error, Received 401 from Outlook REST Endpoint")).
Proof. intros H. unfold messages_reply. by rewrite H. Qed.

Lemma messages_reply_success {Message} (jm : loc → pyval → exn + list Message)
    self f r w :
  heap w !! self = Some (OFolder f) →
  status_code r ≠ 401 →
  messages_reply jm self r w = (json r ≫= λ j, lift (jm (account f) j)) w.
Proof.
  intros Hself H%Z.eqb_neq. unfold messages_reply. rewrite H.
  by rewrite (bind_ok _ _ _ _ _ (attr_ok account _ _ _ Hself)).
Qed.

Lemma json_then {A} (k : pyval → M A) r w q rest :
  (json r ≫= k) (sent w q rest) =
  match json_body r with
  | Some j => k j (decoded w q r rest)
  | None => (decoded w q r rest, inl JSONDecodeError)
  end.
Proof.
  unfold json, mbind, M_bind, log, sent, decoded, mret, M_ret, raise. simpl.
  rewrite <- app_assoc. simpl. by destruct (json_body r).
Qed.

(** * The claims *)

(** C1.  For every status code [s] with [400 ≤ s ≤ 451], each of
    [rename_folder], [get_subfolders], [delete_folder], [move_folder],
    [copy_folder] and [create_child_folder] raises the [AuthError] whose
    message carries [s], once its one request is answered with [s]; the
    body of the response is not decoded (the trace gains the request and
    nothing else), and the message determines the status. *)
Theorem auth_error_in_band w self f i token r rest s name destination :
  folder_at w self f i token →
  inbox w = r :: rest →
  status_code r = s →
  400 ≤ s ≤ 451 →
  raises_auth_error (rename_folder self name) w s ∧
  raises_auth_error (get_subfolders self) w s ∧
  raises_auth_error (delete_folder self) w s ∧
  raises_auth_error (move_folder self destination) w s ∧
  raises_auth_error (copy_folder self destination) w s ∧
  raises_auth_error (create_child_folder self name) w s ∧
  (∀ s', auth_message s' = auth_message s → s' = s).
Proof.
  intros Hself Hin <- Hband%in_error_band_true.
  split_and!; try (eapply raises_auth_error_intro).
  - rewrite (rename_folder_eq _ _ _ _ _ Hself).
    rewrite (bind_ok _ _ _ _ _ (send_ok _ _ _ _ Hin)). by apply folder_reply_band.
  - rewrite (get_subfolders_eq _ _ _ _ _ Hself).
    rewrite (bind_ok _ _ _ _ _ (send_ok _ _ _ _ Hin)). by apply subfolders_reply_band.
  - rewrite (delete_folder_eq _ _ _ _ _ Hself).
    rewrite (bind_ok _ _ _ _ _ (send_ok _ _ _ _ Hin)). by apply delete_reply_band.
  - rewrite (move_folder_eq _ _ _ _ _ Hself).
    rewrite (bind_ok _ _ _ _ _ (send_ok _ _ _ _ Hin)). by apply folder_reply_band.
  - rewrite (copy_folder_eq _ _ _ _ _ Hself).
    rewrite (bind_ok _ _ _ _ _ (send_ok _ _ _ _ Hin)). by apply folder_reply_band.
  - rewrite (create_child_folder_eq _ _ _ _ _ Hself).
    rewrite (bind_ok _ _ _ _ _ (send_ok _ _ _ _ Hin)). by apply folder_reply_band.
  - intros s'. apply auth_message_inj.
Qed.

Lemma auth_error_in_band_witness :
  raises_auth_error (rename_folder 2 "Archive") (sample_world [answer 404 PNone]) 404 ∧
  raises_auth_error (get_subfolders 2) (sample_world [answer 404 PNone]) 404 ∧
  raises_auth_error (delete_folder 2) (sample_world [answer 404 PNone]) 404 ∧
  raises_auth_error (move_folder 2 "BBB") (sample_world [answer 404 PNone]) 404 ∧
  raises_auth_error (copy_folder 2 "BBB") (sample_world [answer 404 PNone]) 404 ∧
  raises_auth_error (create_child_folder 2 "Archive") (sample_world [answer 404 PNone]) 404 ∧
  (∀ s', auth_message s' = auth_message 404 → s' = 404).
Proof.
  apply (auth_error_in_band (sample_world [answer 404 PNone]) 2 sample_folder
           "AAA" "secret" (answer 404 PNone) [] 404 "Archive" "BBB").
  - unfold folder_at. split_and!; reflexivity.
  - reflexivity.
  - reflexivity.
  - lia.
Defined.

(** C2.  [messages] raises [AuthError] when the status is exactly 401; for
    every other status in [400, 451] (400 and 451 among them) it raises no
    [AuthError] of its own: the body is decoded and handed to the message
    layer, whose outcome is the outcome of [messages]. *)
Theorem messages_only_401 {Message} (json_to_messages : loc → pyval → exn + list Message)
    w self f i token r rest :
  folder_at w self f i token →
  inbox w = r :: rest →
  400 ≤ status_code r ≤ 451 →
  ∃ q,
    messages json_to_messages self w =
    if decide (status_code r = 401) then
      (sent w q rest,
       inl (AuthError "Access Token Error, Received 401 from Outlook REST Endpoint"))
    else
      (decoded w q r rest,
       match json_body r with
       | Some j => json_to_messages (account f) j
       | None => inl JSONDecodeError
       end).
Proof.
  intros Hself Hin _. eexists.
  rewrite (messages_eq _ _ _ _ _ Hself).
  rewrite (bind_ok _ _ _ _ _ (send_ok _ _ _ _ Hin)).
  destruct Hself as (Hf & _ & _).
  case_decide as Hs.
  - by apply messages_reply_401.
  - rewrite (messages_reply_success _ _ f) by done.
    rewrite json_then. by destruct (json_body r).
Qed.

Lemma messages_only_401_witness :
  (∃ q,
    messages sample_messages 2 (sample_world [answer 401 PNone]) =
    (sent (sample_world [answer 401 PNone]) q [],
     inl (AuthError "Access Token Error, Received 401 from Outlook REST Endpoint"))) ∧
  (∃ q,
    messages sample_messages 2
      (sample_world [answer 400 messages_json]) =
    (decoded (sample_world [answer 400 messages_json])
       q (answer 400 messages_json) [],
     inr [PStr "m1"; PStr "m2"])).
Proof.
  split.
  - apply (messages_only_401 sample_messages (sample_world [answer 401 PNone]) 2
             sample_folder "AAA" "secret" (answer 401 PNone) []).
    + unfold folder_at. split_and!; reflexivity.
    + reflexivity.
    + simpl. lia.
  - refine (messages_only_401 sample_messages
              (sample_world [answer 400 messages_json])
              2 sample_folder "AAA" "secret"
              (answer 400 messages_json) []
              _ _ _).
    + unfold folder_at. split_and!; reflexivity.
    + reflexivity.
    + simpl. lia.
Defined.

(** C3.  Decoding a JSON object that has the six fields [Id],
    [DisplayName], [ParentFolderId], [ChildFolderCount], [UnreadItemCount]
    and [TotalItemCount] is lossless: [_json_to_folder] returns a new
    Folder whose [id], [name], [parent_id], [child_folder_count],
    [unread_count] and [total_items] are the values of those fields, as
    they are, and whose account is the one given. *)
Theorem json_to_folder_lossless a d w v_id v_name v_parent v_children v_unread v_total :
  d !! "Id" = Some v_id →
  d !! "DisplayName" = Some v_name →
  d !! "ParentFolderId" = Some v_parent →
  d !! "ChildFolderCount" = Some v_children →
  d !! "UnreadItemCount" = Some v_unread →
  d !! "TotalItemCount" = Some v_total →
  ∃ w' l F,
    _json_to_folder a (PDict d) w = (w', inr l) ∧
    heap w !! l = None ∧
    heap w' !! l = Some (OFolder F) ∧
    id F = v_id ∧ name F = v_name ∧ parent_id F = v_parent ∧
    child_folder_count F = v_children ∧ unread_count F = v_unread ∧
    total_items F = v_total ∧ account F = a.
Proof.
  intros H1 H2 H3 H4 H5 H6.
  pose proof (json_to_folder_fields a d _ _ _ _ _ _ H1 H2 H3 H4 H5 H6 w) as Hrun.
  eexists _, _, _. split; [exact Hrun|]. split; [apply fresh_loc|].
  split; [apply lookup_insert_eq|]. by split_and!.
Qed.

Lemma json_to_folder_lossless_witness :
  ∃ w' l F,
    _json_to_folder 1 (PDict archive_json) (sample_world []) = (w', inr l) ∧
    heap (sample_world []) !! l = None ∧
    heap w' !! l = Some (OFolder F) ∧
    id F = PStr "AAA" ∧ name F = PStr "Archive" ∧ parent_id F = PStr "root" ∧
    child_folder_count F = PInt 0 ∧ unread_count F = PInt 0 ∧
    total_items F = PInt 0 ∧ account F = 1%positive.
Proof.
  apply (json_to_folder_lossless 1 archive_json (sample_world [])
           (PStr "AAA") (PStr "Archive") (PStr "root") (PInt 0) (PInt 0) (PInt 0));
    reflexivity.
Defined.

(** The boundaries of the band and a server error, run: a rename answered
    with 399, 452 or 500 returns the Folder of the body. *)
Example rename_at_399_452_500 :
  Forall (λ s, (rename_folder 2 "Archive" (sample_world [answer s (PDict archive_json)])).2
               = inr 3%positive) [399; 452; 500].
Proof. repeat constructor. Qed.

(** The scenario of the specification: [rename("Archive")] sends a PATCH
    to [.../MailFolders/AAA] with the body of the specification, and on
    status 200 and the Folder of the specification as body, returns a
    Folder whose name is [Archive]. *)
Example rename_archive_scenario :
  let '(w', res) := rename_folder 2 "Archive" (sample_world [answer 200 (PDict archive_json)]) in
  ∃ l F q, res = inr l ∧ heap w' !! l = Some (OFolder F) ∧ name F = PStr "Archive" ∧
           requests_of (trace w') = [q] ∧ req_method q = PATCH ∧
           req_url q = "https://outlook.office.com/api/v2.0/me/MailFolders/AAA" ∧
           req_data q = Some ("{ " +:+ dquote +:+ "DisplayName" +:+ dquote +:+ ": "
                              +:+ dquote +:+ "Archive" +:+ dquote +:+ "}").
Proof. vm_compute. eexists _, _, _. by split_and!. Qed.

(** ** Decoding a list of folders *)

(** Each item in turn becomes a new instance; the instances made before
    stay as they are while the others are made. *)
Lemma mapM_json_to_folder a fs :
  Forall folder_json fs →
  ∀ w, ∃ w' ls,
    mapM (_json_to_folder a) fs w = (w', inr ls) ∧
    heap w ⊆ heap w' ∧ inbox w' = inbox w ∧ trace w' = trace w ∧
    NoDup ls ∧
    Forall2 (λ j l, heap w !! l = None ∧
                    ∃ F, decodes_to a j F ∧ heap w' !! l = Some (OFolder F)) fs ls.
Proof.
  induction 1 as [|j fs Hj _ IH]; intros w.
  - exists w, []. split_and!; try done; constructor.
  - destruct (folder_json_decodes a j Hj) as [F HF].
    set (l := fresh (dom (heap w))).
    set (w1 := {| heap := <[l := OFolder F]> (heap w); inbox := inbox w; trace := trace w |}).
    destruct (IH w1) as (w' & ls & Hrun & Hsub & Hinbox & Htrace & Hnd & Hall).
    assert (Hl : heap w !! l = None) by apply fresh_loc.
    assert (Hw1 : heap w ⊆ heap w1) by by apply insert_subseteq.
    exists w', (l :: ls). split_and!.
    + cbn [mapM]. rewrite (bind_ok _ _ w w1 l) by apply HF.
      rewrite (bind_ok _ _ w1 w' ls) by done. done.
    + by etrans.
    + done.
    + done.
    + constructor; [|done]. intros Hin.
      apply list_elem_of_lookup in Hin as [n Hn].
      destruct (Forall2_lookup_r _ _ _ n l Hall Hn) as (x & _ & Hnone & _).
      simpl in Hnone. by rewrite lookup_insert_eq in Hnone.
    + constructor.
      * split; [done|]. exists F. split; [done|].
        apply (lookup_weaken (heap w1)); [apply lookup_insert_eq|done].
      * eapply Forall2_impl; [exact Hall|]. intros x y (Hnone & G & HG & Hy).
        split; [|by exists G]. by eapply lookup_weaken_None.
Qed.

Lemma json_to_folders_in_order a d fs w :
  d !! "value" = Some (PList fs) →
  Forall folder_json fs →
  ∃ w' ls,
    _json_to_folders a (PDict d) w = (w', inr ls) ∧
    heap w ⊆ heap w' ∧ inbox w' = inbox w ∧ trace w' = trace w ∧
    folders_of a w' fs ls.
Proof.
  intros Hvalue Hfs.
  destruct (mapM_json_to_folder a fs Hfs w)
    as (w' & ls & Hrun & Hsub & Hinbox & Htrace & Hnd & Hall).
  exists w', ls. split_and!; try done.
  - unfold _json_to_folders, getitem. rewrite Hvalue.
    unfold mbind at 1, M_bind at 1. simpl.
    unfold mbind at 1, M_bind at 1. simpl. exact Hrun.
  - split_and!; [symmetry; by eapply Forall2_length|done|].
    eapply Forall2_impl; [exact Hall|]. by intros x y (_ & ?).
Qed.

(** C5.  On a payload whose [value] is the array [f1, ..., fn] of folder
    objects, decoding a folder list, as [get_subfolders] does on a success
    status, returns exactly [n] Folders, in the order of the array, the
    k-th being what the single-folder rule makes of [fk]. *)
Theorem subfolders_in_order w self f i token r rest d fs :
  folder_at w self f i token →
  inbox w = r :: rest →
  status_code r ≤ 399 ∨ 452 ≤ status_code r →
  json_body r = Some (PDict d) →
  d !! "value" = Some (PList fs) →
  Forall folder_json fs →
  (∀ a w0, ∃ w' ls,
     _json_to_folders a (PDict d) w0 = (w', inr ls) ∧ folders_of a w' fs ls) ∧
  (∃ w' ls,
     get_subfolders self w = (w', inr ls) ∧ folders_of (account f) w' fs ls).
Proof.
  intros Hself Hin Hs%in_error_band_false Hbody Hvalue Hfs. split.
  - intros a w0.
    destruct (json_to_folders_in_order a d fs w0 Hvalue Hfs) as (w' & ls & Hrun & _ & _ & _ & H).
    by exists w', ls.
  - rewrite (get_subfolders_eq _ _ _ _ _ Hself).
    rewrite (bind_ok _ _ _ _ _ (send_ok _ _ _ _ Hin)).
    destruct Hself as (Hf & _ & _).
    rewrite (subfolders_reply_success _ f) by done.
    rewrite json_then, Hbody.
    match goal with |- context [_json_to_folders _ _ ?w1] =>
      destruct (json_to_folders_in_order (account f) d fs w1 Hvalue Hfs)
        as (w' & ls & Hrun & _ & _ & _ & H)
    end.
    by exists w', ls.
Qed.

Lemma archive_is_folder_json : folder_json (PDict archive_json).
Proof.
  exists archive_json. split; [done|]. intros k Hk.
  unfold folder_keys in Hk.
  repeat (apply elem_of_cons in Hk as [->|Hk]; [by eexists|]).
  by apply elem_of_nil in Hk.
Qed.

Lemma drafts_is_folder_json : folder_json (PDict drafts_json).
Proof.
  exists drafts_json. split; [done|]. intros k Hk.
  unfold folder_keys in Hk.
  repeat (apply elem_of_cons in Hk as [->|Hk]; [by eexists|]).
  by apply elem_of_nil in Hk.
Qed.

Lemma subfolders_in_order_witness :
  (∀ a w0, ∃ w' ls,
     _json_to_folders a folders_json w0 = (w', inr ls) ∧
     folders_of a w' [PDict archive_json; PDict drafts_json] ls) ∧
  (∃ w' ls,
     get_subfolders 2 (sample_world [answer 200 folders_json]) = (w', inr ls) ∧
     folders_of 1 w' [PDict archive_json; PDict drafts_json] ls).
Proof.
  apply (subfolders_in_order (sample_world [answer 200 folders_json]) 2 sample_folder
           "AAA" "secret" (answer 200 folders_json) []
           {[ "value" := PList [PDict archive_json; PDict drafts_json] ]}
           [PDict archive_json; PDict drafts_json]).
  - unfold folder_at. split_and!; reflexivity.
  - reflexivity.
  - left. simpl. lia.
  - reflexivity.
  - reflexivity.
  - repeat constructor;
      [exact archive_is_folder_json | exact drafts_is_folder_json].
Defined.

(** The order, run: the first of the two instances is the Archive folder,
    the second the Drafts folder. *)
Example subfolders_run :
  let '(w', res) := get_subfolders 2 (sample_world [answer 200 folders_json]) in
  ∃ l1 l2 F1 F2, res = inr [l1; l2] ∧
    heap w' !! l1 = Some (OFolder F1) ∧ name F1 = PStr "Archive" ∧
    heap w' !! l2 = Some (OFolder F2) ∧ name F2 = PStr "Drafts".
Proof. vm_compute. eexists _, _, _, _. by split_and!. Qed.

(** ** A new instance for every change *)

Lemma stable_leaves_untouched {A} (m : M A) self :
  stable heap_grows m → leaves_untouched m self.
Proof. intros Hm w o Ho. by apply (lookup_weaken (heap w)), Hm. Qed.

Lemma folder_reply_new w self f q r rest j F :
  heap w !! self = Some (OFolder f) →
  inbox w = r :: rest →
  in_error_band (status_code r) = false →
  json_body r = Some j →
  decodes_to (account f) j F →
  returns_new_folder (send q ≫= folder_reply self) w self F.
Proof.
  intros Hself Hin Hs Hbody HF.
  exists {| heap := <[fresh (dom (heap w)) := OFolder F]> (heap w);
            inbox := rest; trace := trace w ++ [EvRequest q; EvJson r] |},
         (fresh (dom (heap w))).
  pose proof (fresh_loc w) as Hfresh.
  split_and!.
  - rewrite (bind_ok _ _ _ _ _ (send_ok q w r rest Hin)).
    rewrite (folder_reply_success _ f) by done.
    rewrite json_then, Hbody. by rewrite HF.
  - intros Heq. rewrite Heq in Hfresh. congruence.
  - done.
  - apply lookup_insert_eq.
  - intros l0 o Ho. simpl. rewrite lookup_insert_ne; [done|].
    intros Heq. rewrite Heq in Hfresh. congruence.
Qed.

(** C6.  [rename_folder], [move_folder], [copy_folder] and
    [create_child_folder] return a new Folder instance, made of the JSON
    that the server answers with, and leave the instance they are invoked
    on as it was: its [id], [name], [parent_id], [child_folder_count],
    [unread_count], [total_items] and [account], as every other object of
    the heap.  That instance is left as it was also when the method ends
    in an exception. *)
Theorem mutators_return_new_folder w self f i token r rest j F name destination :
  folder_at w self f i token →
  inbox w = r :: rest →
  status_code r ≤ 399 ∨ 452 ≤ status_code r →
  json_body r = Some j →
  decodes_to (account f) j F →
  (returns_new_folder (rename_folder self name) w self F ∧
   returns_new_folder (move_folder self destination) w self F ∧
   returns_new_folder (copy_folder self destination) w self F ∧
   returns_new_folder (create_child_folder self name) w self F) ∧
  (leaves_untouched (rename_folder self name) self ∧
   leaves_untouched (move_folder self destination) self ∧
   leaves_untouched (copy_folder self destination) self ∧
   leaves_untouched (create_child_folder self name) self).
Proof.
  intros Hself Hin Hs%in_error_band_false Hbody HF.
  pose proof Hself as (Hf & _ & _). split; split_and!.
  - unfold returns_new_folder. rewrite (rename_folder_eq _ _ _ _ _ Hself).
    by eapply folder_reply_new.
  - unfold returns_new_folder. rewrite (move_folder_eq _ _ _ _ _ Hself).
    by eapply folder_reply_new.
  - unfold returns_new_folder. rewrite (copy_folder_eq _ _ _ _ _ Hself).
    by eapply folder_reply_new.
  - unfold returns_new_folder. rewrite (create_child_folder_eq _ _ _ _ _ Hself).
    by eapply folder_reply_new.
  - apply stable_leaves_untouched, rename_folder_heap.
  - apply stable_leaves_untouched, move_folder_heap.
  - apply stable_leaves_untouched, copy_folder_heap.
  - apply stable_leaves_untouched, create_child_folder_heap.
Qed.

Lemma mutators_return_new_folder_witness :
  (returns_new_folder (rename_folder 2 "Archive") world_200 2 archive_folder ∧
   returns_new_folder (move_folder 2 "BBB") world_200 2 archive_folder ∧
   returns_new_folder (copy_folder 2 "BBB") world_200 2 archive_folder ∧
   returns_new_folder (create_child_folder 2 "Archive") world_200 2 archive_folder) ∧
  (leaves_untouched (rename_folder 2 "Archive") 2 ∧
   leaves_untouched (move_folder 2 "BBB") 2 ∧
   leaves_untouched (copy_folder 2 "BBB") 2 ∧
   leaves_untouched (create_child_folder 2 "Archive") 2).
Proof.
  apply (mutators_return_new_folder world_200 2 sample_folder "AAA" "secret"
           (answer 200 (PDict archive_json)) [] (PDict archive_json) archive_folder
           "Archive" "BBB").
  - unfold folder_at. split_and!; reflexivity.
  - reflexivity.
  - left. simpl. lia.
  - reflexivity.
  - intros w0. reflexivity.
Defined.

(** ** The request of every method *)

Section OneRequest.
Context (w : world) (self : loc) (f : Folder) (i token : string).
Hypothesis Hself : folder_at w self f i token.

Lemma rename_folder_sends name :
  sends (rename_folder self name) w
    {| req_method := PATCH; req_url := base_url +:+ i;
       req_headers := bearer_headers token;
       req_data := Some (display_name_open +:+ name +:+ payload_close) |}.
Proof.
  unfold sends. rewrite (rename_folder_eq _ _ _ _ _ Hself).
  apply send_then_quiet, folder_reply_quiet.
Qed.

Lemma get_subfolders_sends :
  sends (get_subfolders self) w
    {| req_method := GET; req_url := base_url +:+ i +:+ "/childfolders";
       req_headers := bearer_headers token; req_data := None |}.
Proof.
  unfold sends. rewrite (get_subfolders_eq _ _ _ _ _ Hself).
  apply send_then_quiet, subfolders_reply_quiet.
Qed.

Lemma delete_folder_sends :
  sends (delete_folder self) w
    {| req_method := DELETE; req_url := base_url +:+ i;
       req_headers := bearer_headers token; req_data := None |}.
Proof.
  unfold sends. rewrite (delete_folder_eq _ _ _ _ _ Hself).
  apply send_then_quiet, delete_reply_quiet.
Qed.

Lemma move_folder_sends destination :
  sends (move_folder self destination) w
    {| req_method := POST; req_url := base_url +:+ i +:+ "/move";
       req_headers := bearer_headers token;
       req_data := Some (destination_id_open +:+ destination +:+ payload_close) |}.
Proof.
  unfold sends. rewrite (move_folder_eq _ _ _ _ _ Hself).
  apply send_then_quiet, folder_reply_quiet.
Qed.

Lemma copy_folder_sends destination :
  sends (copy_folder self destination) w
    {| req_method := POST; req_url := base_url +:+ i +:+ "/copy";
       req_headers := bearer_headers token;
       req_data := Some (destination_id_open +:+ destination +:+ payload_close) |}.
Proof.
  unfold sends. rewrite (copy_folder_eq _ _ _ _ _ Hself).
  apply send_then_quiet, folder_reply_quiet.
Qed.

Lemma create_child_folder_sends name :
  sends (create_child_folder self name) w
    {| req_method := POST; req_url := base_url +:+ i +:+ "/childfolders";
       req_headers := bearer_headers token;
       req_data := Some (display_name_open +:+ name +:+ payload_close) |}.
Proof.
  unfold sends. rewrite (create_child_folder_eq _ _ _ _ _ Hself).
  apply send_then_quiet, folder_reply_quiet.
Qed.

Lemma messages_sends {Message} (jm : loc → pyval → exn + list Message) :
  sends (messages jm self) w
    {| req_method := GET; req_url := base_url +:+ i +:+ "/messages";
       req_headers := bearer_headers token; req_data := None |}.
Proof.
  unfold sends. rewrite (messages_eq _ _ _ _ _ Hself).
  apply send_then_quiet, messages_reply_quiet.
Qed.
End OneRequest.

(** ** Bodies that are not JSON *)

Lemma quoted_display_name_invalid :
  ¬ Json.valid (display_name_open +:+ ("a" +:+ dquote +:+ "b") +:+ payload_close).
Proof.
  intros [fuel H]. destruct fuel as [|[|[|fuel]]]; vm_compute in H; discriminate.
Qed.

Lemma quoted_destination_invalid :
  ¬ Json.valid (destination_id_open +:+ ("a" +:+ dquote +:+ "b") +:+ payload_close).
Proof.
  intros [fuel H]. destruct fuel as [|[|[|fuel]]]; vm_compute in H; discriminate.
Qed.

(** A name without a quote gives a body that is JSON. *)
Example plain_display_name_valid :
  Json.valid (display_name_open +:+ "Archive" +:+ payload_close) ∧
  Json.validb (display_name_open +:+ "Archive" +:+ payload_close) = true.
Proof. split; [by exists 3%nat|reflexivity]. Qed.

(** Not every name with a quote breaks the body: one that closes the
    string and opens another member gives a JSON object with a second
    key. *)
Example quoted_name_adds_member :
  Json.valid (display_name_open
              +:+ ("x" +:+ dquote +:+ ", " +:+ dquote +:+ "y" +:+ dquote +:+ ": "
                   +:+ dquote +:+ "z")
              +:+ payload_close).
Proof. exists 4%nat. reflexivity. Qed.

(** C7.  The body of a request is the argument of the caller put between
    two constant strings, as it is, with no escaping.  For [rename_folder]
    and [create_child_folder] the body is an opening brace, a space, the
    quoted key [DisplayName], a colon, a space and a quote, then the name,
    then a quote and a closing brace; for [move_folder] and [copy_folder]
    it is the same with the key [DestinationId] and the destination.  So an
    argument with a quote in it gives a body that is not JSON. *)
Theorem payloads_by_interpolation w self f i token name destination :
  folder_at w self f i token →
  (list_ascii_of_string display_name_open =
     ["{"; " "; "034"; "D"; "i"; "s"; "p"; "l"; "a"; "y"; "N"; "a"; "m"; "e"; "034"; ":";
      " "; "034"]%char ∧
   list_ascii_of_string destination_id_open =
     ["{"; " "; "034"; "D"; "e"; "s"; "t"; "i"; "n"; "a"; "t"; "i"; "o"; "n"; "I"; "d";
      "034"; ":"; " "; "034"]%char ∧
   list_ascii_of_string payload_close = ["034"; "}"]%char) ∧
  posts (rename_folder self name) w (display_name_open +:+ name +:+ payload_close) ∧
  posts (create_child_folder self name) w (display_name_open +:+ name +:+ payload_close) ∧
  posts (move_folder self destination) w
    (destination_id_open +:+ destination +:+ payload_close) ∧
  posts (copy_folder self destination) w
    (destination_id_open +:+ destination +:+ payload_close) ∧
  (∃ bad, (∃ s1 s2, bad = s1 +:+ dquote +:+ s2) ∧
          ¬ Json.valid (display_name_open +:+ bad +:+ payload_close) ∧
          ¬ Json.valid (destination_id_open +:+ bad +:+ payload_close)).
Proof.
  intros Hself. unfold posts. split; [by split_and!|]. split_and!.
  - eexists. split; [by eapply rename_folder_sends|done].
  - eexists. split; [by eapply create_child_folder_sends|done].
  - eexists. split; [by eapply move_folder_sends|done].
  - eexists. split; [by eapply copy_folder_sends|done].
  - exists ("a" +:+ dquote +:+ "b"). split_and!.
    + by exists "a", "b".
    + apply quoted_display_name_invalid.
    + apply quoted_destination_invalid.
Qed.

Lemma payloads_by_interpolation_witness :
  (list_ascii_of_string display_name_open =
     ["{"; " "; "034"; "D"; "i"; "s"; "p"; "l"; "a"; "y"; "N"; "a"; "m"; "e"; "034"; ":";
      " "; "034"]%char ∧
   list_ascii_of_string destination_id_open =
     ["{"; " "; "034"; "D"; "e"; "s"; "t"; "i"; "n"; "a"; "t"; "i"; "o"; "n"; "I"; "d";
      "034"; ":"; " "; "034"]%char ∧
   list_ascii_of_string payload_close = ["034"; "}"]%char) ∧
  posts (rename_folder 2 "Archive") world_200
    (display_name_open +:+ "Archive" +:+ payload_close) ∧
  posts (create_child_folder 2 "Archive") world_200
    (display_name_open +:+ "Archive" +:+ payload_close) ∧
  posts (move_folder 2 "BBB") world_200 (destination_id_open +:+ "BBB" +:+ payload_close) ∧
  posts (copy_folder 2 "BBB") world_200 (destination_id_open +:+ "BBB" +:+ payload_close) ∧
  (∃ bad, (∃ s1 s2, bad = s1 +:+ dquote +:+ s2) ∧
          ¬ Json.valid (display_name_open +:+ bad +:+ payload_close) ∧
          ¬ Json.valid (destination_id_open +:+ bad +:+ payload_close)).
Proof.
  apply (payloads_by_interpolation world_200 2 sample_folder "AAA" "secret" "Archive" "BBB").
  unfold folder_at. split_and!; reflexivity.
Defined.

(** The two constant strings around a name, character for character. *)
Example display_name_payload :
  list_ascii_of_string (display_name_open +:+ "N" +:+ payload_close) =
  ["{"; " "; "034"; "D"; "i"; "s"; "p"; "l"; "a"; "y"; "N"; "a"; "m"; "e"; "034"; ":"; " ";
   "034"; "N"; "034"; "}"]%char.
Proof. reflexivity. Qed.

Example destination_id_payload :
  list_ascii_of_string (destination_id_open +:+ "N" +:+ payload_close) =
  ["{"; " "; "034"; "D"; "e"; "s"; "t"; "i"; "n"; "a"; "t"; "i"; "o"; "n"; "I"; "d"; "034";
   ":"; " "; "034"; "N"; "034"; "}"]%char.
Proof. reflexivity. Qed.

(** ** Headers *)

Lemma folder_at_set_token w self f i token token' :
  folder_at w self f i token →
  folder_at (set_token (account f) token' w) self f i token'.
Proof.
  intros (Hf & Hid & Hacc). unfold folder_at, set_token. simpl. split_and!.
  - rewrite lookup_insert_ne; [done|]. intros Heq. rewrite Heq in Hacc. congruence.
  - done.
  - apply lookup_insert_eq.
Qed.

(** C8.  The request of every method carries exactly two headers:
    [Authorization], whose value is [Bearer] and the access token of the
    account, and [Content-Type], whose value is [application/json].  The
    token is read from the account at the time of the call: once the
    account holds another token, the same Folder sends that one. *)
Theorem headers_on_every_request {Message} (jm : loc → pyval → exn + list Message)
    w self f i token token' name destination :
  folder_at w self f i token →
  (bearer_headers token =
     {[ "Authorization" := "Bearer " +:+ token; "Content-Type" := "application/json" ]} ∧
   dom (bearer_headers token) = {[ "Authorization"; "Content-Type" ]}) ∧
  (carries_headers (rename_folder self name) w (bearer_headers token) ∧
   carries_headers (get_subfolders self) w (bearer_headers token) ∧
   carries_headers (delete_folder self) w (bearer_headers token) ∧
   carries_headers (move_folder self destination) w (bearer_headers token) ∧
   carries_headers (copy_folder self destination) w (bearer_headers token) ∧
   carries_headers (create_child_folder self name) w (bearer_headers token) ∧
   carries_headers (messages jm self) w (bearer_headers token)) ∧
  (let w' := set_token (account f) token' w in
   carries_headers (rename_folder self name) w' (bearer_headers token') ∧
   carries_headers (get_subfolders self) w' (bearer_headers token') ∧
   carries_headers (delete_folder self) w' (bearer_headers token') ∧
   carries_headers (move_folder self destination) w' (bearer_headers token') ∧
   carries_headers (copy_folder self destination) w' (bearer_headers token') ∧
   carries_headers (create_child_folder self name) w' (bearer_headers token') ∧
   carries_headers (messages jm self) w' (bearer_headers token')).
Proof.
  intros Hself.
  assert (Hall : ∀ w0 t, folder_at w0 self f i t →
            carries_headers (rename_folder self name) w0 (bearer_headers t) ∧
            carries_headers (get_subfolders self) w0 (bearer_headers t) ∧
            carries_headers (delete_folder self) w0 (bearer_headers t) ∧
            carries_headers (move_folder self destination) w0 (bearer_headers t) ∧
            carries_headers (copy_folder self destination) w0 (bearer_headers t) ∧
            carries_headers (create_child_folder self name) w0 (bearer_headers t) ∧
            carries_headers (messages jm self) w0 (bearer_headers t)).
  { intros w0 t H0. unfold carries_headers. split_and!; eexists.
    - split; [by eapply rename_folder_sends|done].
    - split; [by eapply get_subfolders_sends|done].
    - split; [by eapply delete_folder_sends|done].
    - split; [by eapply move_folder_sends|done].
    - split; [by eapply copy_folder_sends|done].
    - split; [by eapply create_child_folder_sends|done].
    - split; [by eapply messages_sends|done]. }
  split; [|split].
  - split; [done|]. unfold bearer_headers.
    by rewrite dom_insert_L, dom_singleton_L.
  - by apply Hall.
  - apply Hall. eapply folder_at_set_token, Hself.
Qed.

Lemma headers_on_every_request_witness :
  (bearer_headers "secret" =
     {[ "Authorization" := "Bearer " +:+ "secret"; "Content-Type" := "application/json" ]} ∧
   dom (bearer_headers "secret") = {[ "Authorization"; "Content-Type" ]}) ∧
  (carries_headers (rename_folder 2 "Archive") world_200 (bearer_headers "secret") ∧
   carries_headers (get_subfolders 2) world_200 (bearer_headers "secret") ∧
   carries_headers (delete_folder 2) world_200 (bearer_headers "secret") ∧
   carries_headers (move_folder 2 "BBB") world_200 (bearer_headers "secret") ∧
   carries_headers (copy_folder 2 "BBB") world_200 (bearer_headers "secret") ∧
   carries_headers (create_child_folder 2 "Archive") world_200 (bearer_headers "secret") ∧
   carries_headers (messages sample_messages 2) world_200 (bearer_headers "secret")) ∧
  (let w' := set_token (account sample_folder) "renewed" world_200 in
   carries_headers (rename_folder 2 "Archive") w' (bearer_headers "renewed") ∧
   carries_headers (get_subfolders 2) w' (bearer_headers "renewed") ∧
   carries_headers (delete_folder 2) w' (bearer_headers "renewed") ∧
   carries_headers (move_folder 2 "BBB") w' (bearer_headers "renewed") ∧
   carries_headers (copy_folder 2 "BBB") w' (bearer_headers "renewed") ∧
   carries_headers (create_child_folder 2 "Archive") w' (bearer_headers "renewed") ∧
   carries_headers (messages sample_messages 2) w' (bearer_headers "renewed")).
Proof.
  apply (headers_on_every_request sample_messages world_200 2 sample_folder
           "AAA" "secret" "renewed" "Archive" "BBB").
  unfold folder_at. split_and!; reflexivity.
Defined.

(** The token of the account is replaced between two calls on the same
    Folder: the second request carries the new one. *)
Example token_renewed_between_calls :
  let w1 := (delete_folder 2 (sample_world [answer 204 PNone; answer 204 PNone])).1 in
  let w2 := (delete_folder 2 (set_token 1 "renewed" w1)).1 in
  (λ q, req_headers q !! "Authorization") <$> requests_of (trace w2) =
  [Some "Bearer secret"; Some "Bearer renewed"].
Proof. vm_compute. reflexivity. Qed.

(** C9.  Every method sends its request to the base
    [https://outlook.office.com/api/v2.0/me/MailFolders/] followed by the
    [id] of the Folder and by the suffix of the method: none for
    [rename_folder] (PATCH) and [delete_folder] (DELETE), [/childfolders]
    for [get_subfolders] (GET) and [create_child_folder] (POST), [/move]
    for [move_folder] (POST), [/copy] for [copy_folder] (POST) and
    [/messages] for [messages] (GET). *)
Theorem endpoints_and_methods {Message} (jm : loc → pyval → exn + list Message)
    w self f i token name destination :
  folder_at w self f i token →
  base_url = "https://outlook.office.com/api/v2.0/me/MailFolders/" ∧
  requests_to (rename_folder self name) w PATCH (base_url +:+ i) ∧
  requests_to (delete_folder self) w DELETE (base_url +:+ i) ∧
  requests_to (get_subfolders self) w GET (base_url +:+ i +:+ "/childfolders") ∧
  requests_to (create_child_folder self name) w POST (base_url +:+ i +:+ "/childfolders") ∧
  requests_to (move_folder self destination) w POST (base_url +:+ i +:+ "/move") ∧
  requests_to (copy_folder self destination) w POST (base_url +:+ i +:+ "/copy") ∧
  requests_to (messages jm self) w GET (base_url +:+ i +:+ "/messages").
Proof.
  intros Hself. unfold requests_to. split; [done|]. split_and!; eexists.
  - split; [by eapply rename_folder_sends|done].
  - split; [by eapply delete_folder_sends|done].
  - split; [by eapply get_subfolders_sends|done].
  - split; [by eapply create_child_folder_sends|done].
  - split; [by eapply move_folder_sends|done].
  - split; [by eapply copy_folder_sends|done].
  - split; [by eapply messages_sends|done].
Qed.

Lemma endpoints_and_methods_witness :
  base_url = "https://outlook.office.com/api/v2.0/me/MailFolders/" ∧
  requests_to (rename_folder 2 "Archive") world_200 PATCH (base_url +:+ "AAA") ∧
  requests_to (delete_folder 2) world_200 DELETE (base_url +:+ "AAA") ∧
  requests_to (get_subfolders 2) world_200 GET (base_url +:+ "AAA" +:+ "/childfolders") ∧
  requests_to (create_child_folder 2 "Archive") world_200 POST
    (base_url +:+ "AAA" +:+ "/childfolders") ∧
  requests_to (move_folder 2 "BBB") world_200 POST (base_url +:+ "AAA" +:+ "/move") ∧
  requests_to (copy_folder 2 "BBB") world_200 POST (base_url +:+ "AAA" +:+ "/copy") ∧
  requests_to (messages sample_messages 2) world_200 GET
    (base_url +:+ "AAA" +:+ "/messages").
Proof.
  apply (endpoints_and_methods sample_messages world_200 2 sample_folder
           "AAA" "secret" "Archive" "BBB").
  unfold folder_at. split_and!; reflexivity.
Defined.

(** ** Missing keys *)

Lemma folder_reply_missing w self f q r rest d :
  heap w !! self = Some (OFolder f) →
  inbox w = r :: rest →
  in_error_band (status_code r) = false →
  json_body r = Some (PDict d) →
  (∃ k, k ∈ folder_keys ∧ d !! k = None) →
  raises_key_error (send q ≫= folder_reply self) w d folder_keys.
Proof.
  intros Hself Hin Hs Hbody Hmiss.
  destruct (json_to_folder_missing (account f) d (decoded w q r rest) Hmiss)
    as (k & Hk & Hnone & Hrun).
  exists (decoded w q r rest), k. split_and!; try done.
  rewrite (bind_ok _ _ _ _ _ (send_ok q w r rest Hin)).
  rewrite (folder_reply_success _ f) by done.
  by rewrite json_then, Hbody.
Qed.

(** C10, as amended.  Decoding requires its keys: for every account, on a
    JSON object that lacks one of the six keys of a folder,
    [_json_to_folder] ends in a [KeyError] for a key that is missing, and
    makes no Folder, with default values or otherwise; on one that lacks
    [value], so does [_json_to_folders].  So each method that decodes
    folders raises that [KeyError] instead of returning when it receives
    such a body with a success status: [rename_folder], [move_folder],
    [copy_folder] and [create_child_folder] for the six keys,
    [get_subfolders] for [value].  The other two do not: [delete_folder],
    which decodes nothing, returns, and [messages] hands the body to the
    message layer and ends as that layer does. *)
Theorem missing_key_raises {Message} (jm : loc → pyval → exn + list Message)
    w self f i token r rest d new_name destination wl rl restl dl a w0 :
  folder_at w self f i token →
  inbox w = r :: rest →
  status_code r ≤ 399 ∨ 452 ≤ status_code r →
  json_body r = Some (PDict d) →
  (∃ k, k ∈ folder_keys ∧ d !! k = None) →
  folder_at wl self f i token →
  inbox wl = rl :: restl →
  status_code rl ≤ 399 ∨ 452 ≤ status_code rl →
  json_body rl = Some (PDict dl) →
  dl !! "value" = None →
  (raises_key_error (_json_to_folder a (PDict d)) w0 d folder_keys ∧
   raises_key_error (_json_to_folders a (PDict dl)) w0 dl ["value"]) ∧
  (raises_key_error (rename_folder self new_name) w d folder_keys ∧
   raises_key_error (move_folder self destination) w d folder_keys ∧
   raises_key_error (copy_folder self destination) w d folder_keys ∧
   raises_key_error (create_child_folder self new_name) w d folder_keys ∧
   raises_key_error (get_subfolders self) wl dl ["value"]) ∧
  ((∃ q, delete_folder self w = (sent w q rest, inr ())) ∧
   (∃ q, delete_folder self wl = (sent wl q restl, inr ())) ∧
   (∃ q, messages jm self w = (decoded w q r rest, jm (account f) (PDict d)))).
Proof.
  intros Hself Hin Hs Hbody Hmiss Hselfl Hinl Hsl Hbodyl Hvalue.
  assert (Hs401 : status_code r ≠ 401) by lia.
  apply in_error_band_false in Hs. apply in_error_band_false in Hsl.
  pose proof Hself as (Hf & _ & _). pose proof Hselfl as (Hfl & _ & _).
  assert (Hlist : ∀ a' w1,
            _json_to_folders a' (PDict dl) w1 = (w1, inl (KeyError "value"))).
  { intros a' w1. unfold _json_to_folders, getitem. by rewrite Hvalue. }
  split; [|split]; split_and!.
  - destruct (json_to_folder_missing a d w0 Hmiss) as (k & Hk & Hnone & Hrun).
    by exists w0, k.
  - exists w0, "value". split_and!; [apply Hlist|apply list_elem_of_here|done..].
  - unfold raises_key_error. rewrite (rename_folder_eq _ _ _ _ _ Hself).
    by eapply folder_reply_missing.
  - unfold raises_key_error. rewrite (move_folder_eq _ _ _ _ _ Hself).
    by eapply folder_reply_missing.
  - unfold raises_key_error. rewrite (copy_folder_eq _ _ _ _ _ Hself).
    by eapply folder_reply_missing.
  - unfold raises_key_error. rewrite (create_child_folder_eq _ _ _ _ _ Hself).
    by eapply folder_reply_missing.
  - unfold raises_key_error. rewrite (get_subfolders_eq _ _ _ _ _ Hselfl).
    rewrite (bind_ok _ _ _ _ _ (send_ok _ _ _ _ Hinl)).
    rewrite (subfolders_reply_success _ f) by done.
    rewrite json_then, Hbodyl.
    eexists _, "value". split_and!; [apply Hlist|apply list_elem_of_here|done..].
  - eexists. rewrite (delete_folder_eq _ _ _ _ _ Hself).
    rewrite (bind_ok _ _ _ _ _ (send_ok _ _ _ _ Hin)).
    by apply delete_reply_success.
  - eexists. rewrite (delete_folder_eq _ _ _ _ _ Hselfl).
    rewrite (bind_ok _ _ _ _ _ (send_ok _ _ _ _ Hinl)).
    by apply delete_reply_success.
  - eexists. rewrite (messages_eq _ _ _ _ _ Hself).
    rewrite (bind_ok _ _ _ _ _ (send_ok _ _ _ _ Hin)).
    rewrite (messages_reply_success _ _ f) by done.
    by rewrite json_then, Hbody.
Qed.

Lemma missing_key_raises_witness :
  (raises_key_error (_json_to_folder 1 (PDict incomplete_json)) (sample_world [])
     incomplete_json folder_keys ∧
   raises_key_error (_json_to_folders 1 (PDict misnamed_list_json)) (sample_world [])
     misnamed_list_json ["value"]) ∧
  (raises_key_error (rename_folder 2 "Archive") world_incomplete incomplete_json folder_keys ∧
   raises_key_error (move_folder 2 "BBB") world_incomplete incomplete_json folder_keys ∧
   raises_key_error (copy_folder 2 "BBB") world_incomplete incomplete_json folder_keys ∧
   raises_key_error (create_child_folder 2 "Archive") world_incomplete
     incomplete_json folder_keys ∧
   raises_key_error (get_subfolders 2) world_misnamed misnamed_list_json ["value"]) ∧
  ((∃ q, delete_folder 2 world_incomplete = (sent world_incomplete q [], inr ())) ∧
   (∃ q, delete_folder 2 world_misnamed = (sent world_misnamed q [], inr ())) ∧
   (∃ q, messages sample_messages 2 world_incomplete
         = (decoded world_incomplete q (answer 200 (PDict incomplete_json)) [],
            sample_messages (account sample_folder) (PDict incomplete_json)))).
Proof.
  apply (missing_key_raises sample_messages world_incomplete 2 sample_folder "AAA" "secret"
           (answer 200 (PDict incomplete_json)) [] incomplete_json "Archive" "BBB"
           world_misnamed (answer 200 (PDict misnamed_list_json)) [] misnamed_list_json
           1%positive (sample_world [])).
  - unfold folder_at. split_and!; reflexivity.
  - reflexivity.
  - left. simpl. lia.
  - reflexivity.
  - exists "ParentFolderId". split; [|reflexivity].
    unfold folder_keys. repeat first [apply list_elem_of_here | apply list_elem_of_further].
  - unfold folder_at. split_and!; reflexivity.
  - reflexivity.
  - left. simpl. lia.
  - reflexivity.
  - reflexivity.
Defined.

(** C10, as it was stated, fails on [delete_folder]: it receives a success
    status with a body that lacks [ParentFolderId], and returns. *)
Lemma delete_folder_returns_on_incomplete_body :
  inbox world_incomplete = [answer 200 (PDict incomplete_json)] ∧
  (status_code (answer 200 (PDict incomplete_json)) ≤ 399
   ∨ 452 ≤ status_code (answer 200 (PDict incomplete_json))) ∧
  "ParentFolderId" ∈ folder_keys ∧
  incomplete_json !! "ParentFolderId" = None ∧
  (delete_folder 2 world_incomplete).2 = inr () ∧
  ¬ (∃ e, (delete_folder 2 world_incomplete).2 = inl e).
Proof.
  split_and!.
  - reflexivity.
  - left. simpl. lia.
  - unfold folder_keys. repeat first [apply list_elem_of_here | apply list_elem_of_further].
  - reflexivity.
  - reflexivity.
  - intros [e He]. vm_compute in He. discriminate He.
Qed.

(** The key that the error names is the first, in the order of the
    lookups, that the object lacks. *)
Example rename_incomplete_run :
  (rename_folder 2 "Archive" world_incomplete).2 = inl (KeyError "ParentFolderId") ∧
  (get_subfolders 2 world_misnamed).2 = inl (KeyError "value").
Proof. split; reflexivity. Qed.

(** ** Success *)

Lemma decodings_of_decoded w q r rest :
  decodings_of (trace (decoded w q r rest)) = decodings_of (trace w) ++ [r].
Proof. unfold decodings_of, decoded. simpl. by rewrite omap_app. Qed.

Lemma folder_reply_returns w self f q r rest j F :
  heap w !! self = Some (OFolder f) →
  inbox w = r :: rest →
  in_error_band (status_code r) = false →
  json_body r = Some j →
  decodes_to (account f) j F →
  (send q ≫= folder_reply self) w = Folder_new F (decoded w q r rest).
Proof.
  intros Hself Hin Hs Hbody HF.
  rewrite (bind_ok _ _ _ _ _ (send_ok q w r rest Hin)).
  rewrite (folder_reply_success _ f) by done.
  rewrite json_then, Hbody. apply HF.
Qed.

Lemma folder_reply_returns_folder_of (m : M loc) w self f q r rest j F :
  heap w !! self = Some (OFolder f) →
  inbox w = r :: rest →
  in_error_band (status_code r) = false →
  json_body r = Some j →
  decodes_to (account f) j F →
  m w = (send q ≫= folder_reply self) w →
  returns_folder_of m w r F.
Proof.
  intros Hself Hin Hs Hbody HF Hm.
  rewrite (folder_reply_returns w self f q r rest j F) in Hm by done.
  unfold returns_folder_of, decodes_body. rewrite Hm. split.
  - apply decodings_of_decoded.
  - eexists _, _. split; [reflexivity|]. split; [exact (fresh_loc w)|].
    apply lookup_insert_eq.
Qed.

(** C4, as amended.  A status outside the error band is a success.  For
    [s ≤ 399] or [452 ≤ s] (399, 452 and 500 among them), [rename_folder],
    [move_folder], [copy_folder] and [create_child_folder] decode the body
    as JSON and return a new Folder whose attributes are the six fields of
    the body, and [get_subfolders] decodes the body and returns the Folders
    of the items of its [value], in their order; for every status but 401,
    [messages] decodes the body and returns the Messages that the message
    layer makes of it.  (This is for a body of the shape that the decoding
    expects; another body makes the decoding raise.)  [delete_folder]
    treats such a status as a success too, but it decodes nothing and
    returns nothing. *)
Theorem success_outside_band {Message} (jm : loc → pyval → exn + list Message)
    w self f i token r rest d v_id v_name v_parent v_children v_unread v_total
    new_name destination wl rl restl dl fs wm rm restm jmsg ms :
  folder_at w self f i token →
  inbox w = r :: rest →
  status_code r ≤ 399 ∨ 452 ≤ status_code r →
  json_body r = Some (PDict d) →
  d !! "Id" = Some v_id →
  d !! "DisplayName" = Some v_name →
  d !! "ParentFolderId" = Some v_parent →
  d !! "ChildFolderCount" = Some v_children →
  d !! "UnreadItemCount" = Some v_unread →
  d !! "TotalItemCount" = Some v_total →
  folder_at wl self f i token →
  inbox wl = rl :: restl →
  status_code rl ≤ 399 ∨ 452 ≤ status_code rl →
  json_body rl = Some (PDict dl) →
  dl !! "value" = Some (PList fs) →
  Forall folder_json fs →
  folder_at wm self f i token →
  inbox wm = rm :: restm →
  status_code rm ≠ 401 →
  json_body rm = Some jmsg →
  jm (account f) jmsg = inr ms →
  let F := {| account := account f; parent_id := v_parent;
              child_folder_count := v_children; unread_count := v_unread;
              total_items := v_total; name := v_name; id := v_id |} in
  (returns_folder_of (rename_folder self new_name) w r F ∧
   returns_folder_of (move_folder self destination) w r F ∧
   returns_folder_of (copy_folder self destination) w r F ∧
   returns_folder_of (create_child_folder self new_name) w r F) ∧
  (decodes_body (get_subfolders self) wl rl ∧
   ∃ w' ls, get_subfolders self wl = (w', inr ls) ∧ folders_of (account f) w' fs ls) ∧
  (decodes_body (messages jm self) wm rm ∧
   ∃ w', messages jm self wm = (w', inr ms)) ∧
  (∃ q, delete_folder self w = (sent w q rest, inr ())).
Proof.
  intros Hself Hin Hs%in_error_band_false Hbody H1 H2 H3 H4 H5 H6
         Hselfl Hinl Hsl%in_error_band_false Hbodyl Hvalue Hfs
         Hselfm Hinm Hsm Hbodym Hms F.
  pose proof Hself as (Hf & _ & _). pose proof Hselfl as (Hfl & _ & _).
  pose proof Hselfm as (Hfm & _ & _).
  pose proof (json_to_folder_fields (account f) d _ _ _ _ _ _ H1 H2 H3 H4 H5 H6) as HF.
  split; [|split; [|split]].
  - split_and!.
    + eapply folder_reply_returns_folder_of; [done..|].
      apply (rename_folder_eq _ _ _ _ _ Hself).
    + eapply folder_reply_returns_folder_of; [done..|].
      apply (move_folder_eq _ _ _ _ _ Hself).
    + eapply folder_reply_returns_folder_of; [done..|].
      apply (copy_folder_eq _ _ _ _ _ Hself).
    + eapply folder_reply_returns_folder_of; [done..|].
      apply (create_child_folder_eq _ _ _ _ _ Hself).
  - unfold decodes_body. rewrite (get_subfolders_eq _ _ _ _ _ Hselfl).
    rewrite (bind_ok _ _ _ _ _ (send_ok _ _ _ _ Hinl)).
    rewrite (subfolders_reply_success _ f) by done.
    rewrite json_then, Hbodyl.
    match goal with |- context [_json_to_folders _ _ ?w1] =>
      destruct (json_to_folders_in_order (account f) dl fs w1 Hvalue Hfs)
        as (w' & ls & Hrun & _ & _ & Htrace & Hof)
    end.
    rewrite Hrun. simpl. split.
    + rewrite Htrace. unfold decodings_of. simpl. by rewrite omap_app.
    + by exists w', ls.
  - unfold decodes_body. rewrite (messages_eq _ _ _ _ _ Hselfm).
    rewrite (bind_ok _ _ _ _ _ (send_ok _ _ _ _ Hinm)).
    rewrite (messages_reply_success _ _ f) by done.
    rewrite json_then, Hbodym. unfold lift. rewrite Hms. simpl. split.
    + unfold decodings_of. by rewrite omap_app.
    + by eexists.
  - eexists. rewrite (delete_folder_eq _ _ _ _ _ Hself).
    rewrite (bind_ok _ _ _ _ _ (send_ok _ _ _ _ Hin)).
    by apply delete_reply_success.
Qed.

Lemma success_outside_band_witness :
  ((returns_folder_of (rename_folder 2 "Archive") world_500
     (answer 500 (PDict archive_json)) archive_folder ∧
   returns_folder_of (move_folder 2 "BBB") world_500
     (answer 500 (PDict archive_json)) archive_folder ∧
   returns_folder_of (copy_folder 2 "BBB") world_500
     (answer 500 (PDict archive_json)) archive_folder ∧
   returns_folder_of (create_child_folder 2 "Archive") world_500
     (answer 500 (PDict archive_json)) archive_folder) ∧
  (decodes_body (get_subfolders 2) world_452_list (answer 452 folders_json) ∧
   ∃ w' ls, get_subfolders 2 world_452_list = (w', inr ls) ∧
            folders_of 1 w' [PDict archive_json; PDict drafts_json] ls) ∧
  (decodes_body (messages sample_messages 2) world_404m (answer 404 messages_json) ∧
   ∃ w', messages sample_messages 2 world_404m = (w', inr [PStr "m1"; PStr "m2"])) ∧
  (∃ q, delete_folder 2 world_500 = (sent world_500 q [], inr ()))) ∧
  returns_folder_of (rename_folder 2 "Archive") world_399
    (answer 399 (PDict archive_json)) archive_folder.
Proof.
  split.
  2: refine (proj1 (proj1 (success_outside_band sample_messages world_399 2 sample_folder
       "AAA" "secret" (answer 399 (PDict archive_json)) [] archive_json
       (PStr "AAA") (PStr "Archive") (PStr "root") (PInt 0) (PInt 0) (PInt 0)
       "Archive" "BBB"
       world_452_list (answer 452 folders_json) []
       {[ "value" := PList [PDict archive_json; PDict drafts_json] ]}
       [PDict archive_json; PDict drafts_json]
       world_404m (answer 404 messages_json) [] messages_json
       [PStr "m1"; PStr "m2"] _ _ _ _ _ _ _ _ _ _ _ _ _ _ _ _ _ _ _ _ _))).
  1: apply (success_outside_band sample_messages world_500 2 sample_folder "AAA" "secret"
           (answer 500 (PDict archive_json)) [] archive_json
           (PStr "AAA") (PStr "Archive") (PStr "root") (PInt 0) (PInt 0) (PInt 0)
           "Archive" "BBB"
           world_452_list (answer 452 folders_json) []
           {[ "value" := PList [PDict archive_json; PDict drafts_json] ]}
           [PDict archive_json; PDict drafts_json]
           world_404m (answer 404 messages_json) [] messages_json
           [PStr "m1"; PStr "m2"]).
  all: try reflexivity.
  all: try (unfold folder_at; split_and!; reflexivity).
  all: try (simpl; lia).
  all: repeat constructor; [exact archive_is_folder_json | exact drafts_is_folder_json].
Defined.

(** C4, as it was stated, fails on [delete_folder]: answered with 200, a
    status outside the band, it returns, and it has not decoded the body
    of the response. *)
Lemma delete_folder_decodes_no_body :
  inbox world_200 = [answer 200 (PDict archive_json)] ∧
  (status_code (answer 200 (PDict archive_json)) ≤ 399
   ∨ 452 ≤ status_code (answer 200 (PDict archive_json))) ∧
  (delete_folder 2 world_200).2 = inr () ∧
  ¬ decodes_body (delete_folder 2) world_200 (answer 200 (PDict archive_json)).
Proof.
  split_and!.
  - reflexivity.
  - left. simpl. lia.
  - reflexivity.
  - unfold decodes_body. intros H. vm_compute in H. discriminate H.
Qed.

(** * Further properties of the class *)

(** ** Before the request *)

Lemma prelude_type_error {A} (k : gmap string string → string → M A) w self f token :
  heap w !! self = Some (OFolder f) →
  heap w !! account f = Some (OAccount {| access_token := token |}) →
  (∀ i, id f ≠ PStr i) →
  (headers ← headers self;
   self_id ← attr id self;
   endpoint ← str_add base_url self_id;
   k headers endpoint) w
  = (w, inl TypeError).
Proof.
  intros Hf Hacc Hid.
  rewrite (bind_ok _ _ _ _ _ (headers_ok _ _ _ _ Hf Hacc)).
  rewrite (bind_ok _ _ _ _ _ (attr_ok id _ _ _ Hf)).
  destruct (id f); try done. by destruct (Hid s).
Qed.

Lemma prelude_attribute_error {A} (k : gmap string string → string → M A) w self f g :
  heap w !! self = Some (OFolder f) →
  heap w !! account f = Some (OFolder g) →
  (headers ← headers self;
   self_id ← attr id self;
   endpoint ← str_add base_url self_id;
   k headers endpoint) w
  = (w, inl AttributeError).
Proof.
  intros Hf Hacc.
  assert (Hh : headers self w = (w, inl AttributeError)).
  { unfold headers. rewrite (bind_ok _ _ _ _ _ (attr_ok account _ _ _ Hf)).
    unfold mbind, M_bind, get_access_token. by rewrite Hacc. }
  by rewrite (bind_raise _ _ _ _ _ Hh).
Qed.

(** X1.  The URL is built before anything is sent: on a Folder whose [id]
    is not a string (the server gave a number, or [null], as [Id]), each of
    the seven methods ends in a [TypeError] and the world is as it was; no
    request has been sent and no response taken. *)
Theorem non_string_id_sends_nothing {Message} (jm : loc → pyval → exn + list Message)
    w self f token name destination :
  heap w !! self = Some (OFolder f) →
  heap w !! account f = Some (OAccount {| access_token := token |}) →
  (∀ i, id f ≠ PStr i) →
  raises_unsent (rename_folder self name) w TypeError ∧
  raises_unsent (get_subfolders self) w TypeError ∧
  raises_unsent (delete_folder self) w TypeError ∧
  raises_unsent (move_folder self destination) w TypeError ∧
  raises_unsent (copy_folder self destination) w TypeError ∧
  raises_unsent (create_child_folder self name) w TypeError ∧
  raises_unsent (messages jm self) w TypeError.
Proof.
  intros Hf Hacc Hid. unfold raises_unsent. split_and!.
  - unfold rename_folder. by eapply prelude_type_error.
  - unfold get_subfolders. by eapply prelude_type_error.
  - unfold delete_folder. by eapply prelude_type_error.
  - unfold move_folder. by eapply prelude_type_error.
  - unfold copy_folder. by eapply prelude_type_error.
  - unfold create_child_folder. by eapply prelude_type_error.
  - unfold messages. by eapply prelude_type_error.
Qed.

Lemma non_string_id_sends_nothing_witness :
  raises_unsent (rename_folder 2 "Archive") world_numeric_id TypeError ∧
  raises_unsent (get_subfolders 2) world_numeric_id TypeError ∧
  raises_unsent (delete_folder 2) world_numeric_id TypeError ∧
  raises_unsent (move_folder 2 "BBB") world_numeric_id TypeError ∧
  raises_unsent (copy_folder 2 "BBB") world_numeric_id TypeError ∧
  raises_unsent (create_child_folder 2 "Archive") world_numeric_id TypeError ∧
  raises_unsent (messages sample_messages 2) world_numeric_id TypeError.
Proof.
  apply (non_string_id_sends_nothing sample_messages world_numeric_id 2
           numeric_id_folder "secret" "Archive" "BBB").
  - reflexivity.
  - reflexivity.
  - intros i. discriminate.
Defined.

(** X2.  The headers are built first of all: on a Folder whose [account]
    is an object without an [access_token] (here another Folder), each of
    the seven methods ends in an [AttributeError], whatever the [id], and
    the world is as it was. *)
Theorem account_without_token_sends_nothing {Message}
    (jm : loc → pyval → exn + list Message) w self f g name destination :
  heap w !! self = Some (OFolder f) →
  heap w !! account f = Some (OFolder g) →
  raises_unsent (rename_folder self name) w AttributeError ∧
  raises_unsent (get_subfolders self) w AttributeError ∧
  raises_unsent (delete_folder self) w AttributeError ∧
  raises_unsent (move_folder self destination) w AttributeError ∧
  raises_unsent (copy_folder self destination) w AttributeError ∧
  raises_unsent (create_child_folder self name) w AttributeError ∧
  raises_unsent (messages jm self) w AttributeError.
Proof.
  intros Hf Hacc. unfold raises_unsent. split_and!.
  - unfold rename_folder. by eapply prelude_attribute_error.
  - unfold get_subfolders. by eapply prelude_attribute_error.
  - unfold delete_folder. by eapply prelude_attribute_error.
  - unfold move_folder. by eapply prelude_attribute_error.
  - unfold copy_folder. by eapply prelude_attribute_error.
  - unfold create_child_folder. by eapply prelude_attribute_error.
  - unfold messages. by eapply prelude_attribute_error.
Qed.

Lemma account_without_token_sends_nothing_witness :
  raises_unsent (rename_folder 2 "Archive") world_folder_as_account AttributeError ∧
  raises_unsent (get_subfolders 2) world_folder_as_account AttributeError ∧
  raises_unsent (delete_folder 2) world_folder_as_account AttributeError ∧
  raises_unsent (move_folder 2 "BBB") world_folder_as_account AttributeError ∧
  raises_unsent (copy_folder 2 "BBB") world_folder_as_account AttributeError ∧
  raises_unsent (create_child_folder 2 "Archive") world_folder_as_account AttributeError ∧
  raises_unsent (messages sample_messages 2) world_folder_as_account AttributeError.
Proof.
  apply (account_without_token_sends_nothing sample_messages world_folder_as_account 2
           self_owned_folder self_owned_folder "Archive" "BBB").
  - reflexivity.
  - reflexivity.
Defined.

(** ** When the transport or the body fails *)

(** X3.  An exception of the transport is not caught: when the request of
    a method gets no response, the method has sent that one request, ends
    in the failure of the transport, decodes nothing and makes no object. *)
Theorem transport_failure_propagates {Message} (jm : loc → pyval → exn + list Message)
    w self f i token name destination :
  folder_at w self f i token →
  inbox w = [] →
  fails_in_transport (rename_folder self name) w ∧
  fails_in_transport (get_subfolders self) w ∧
  fails_in_transport (delete_folder self) w ∧
  fails_in_transport (move_folder self destination) w ∧
  fails_in_transport (copy_folder self destination) w ∧
  fails_in_transport (create_child_folder self name) w ∧
  fails_in_transport (messages jm self) w.
Proof.
  intros Hself Hin. unfold fails_in_transport. split_and!; eexists.
  - rewrite (rename_folder_eq _ _ _ _ _ Hself).
    by rewrite (bind_raise _ _ _ _ _ (send_fail _ _ Hin)).
  - rewrite (get_subfolders_eq _ _ _ _ _ Hself).
    by rewrite (bind_raise _ _ _ _ _ (send_fail _ _ Hin)).
  - rewrite (delete_folder_eq _ _ _ _ _ Hself).
    by rewrite (bind_raise _ _ _ _ _ (send_fail _ _ Hin)).
  - rewrite (move_folder_eq _ _ _ _ _ Hself).
    by rewrite (bind_raise _ _ _ _ _ (send_fail _ _ Hin)).
  - rewrite (copy_folder_eq _ _ _ _ _ Hself).
    by rewrite (bind_raise _ _ _ _ _ (send_fail _ _ Hin)).
  - rewrite (create_child_folder_eq _ _ _ _ _ Hself).
    by rewrite (bind_raise _ _ _ _ _ (send_fail _ _ Hin)).
  - rewrite (messages_eq _ _ _ _ _ Hself).
    by rewrite (bind_raise _ _ _ _ _ (send_fail _ _ Hin)).
Qed.

Lemma transport_failure_propagates_witness :
  fails_in_transport (rename_folder 2 "Archive") (sample_world []) ∧
  fails_in_transport (get_subfolders 2) (sample_world []) ∧
  fails_in_transport (delete_folder 2) (sample_world []) ∧
  fails_in_transport (move_folder 2 "BBB") (sample_world []) ∧
  fails_in_transport (copy_folder 2 "BBB") (sample_world []) ∧
  fails_in_transport (create_child_folder 2 "Archive") (sample_world []) ∧
  fails_in_transport (messages sample_messages 2) (sample_world []).
Proof.
  apply (transport_failure_propagates sample_messages (sample_world []) 2 sample_folder
           "AAA" "secret" "Archive" "BBB").
  - unfold folder_at. split_and!; reflexivity.
  - reflexivity.
Defined.

Lemma folder_reply_undecodable w self f q r rest :
  heap w !! self = Some (OFolder f) →
  inbox w = r :: rest →
  in_error_band (status_code r) = false →
  json_body r = None →
  (send q ≫= folder_reply self) w = (decoded w q r rest, inl JSONDecodeError).
Proof.
  intros Hf Hin Hs Hbody.
  rewrite (bind_ok _ _ _ _ _ (send_ok q w r rest Hin)).
  rewrite (folder_reply_success _ f) by done.
  by rewrite json_then, Hbody.
Qed.

(** X4.  A body that is not JSON is not handled: with a status outside the
    band, the five methods that return Folders end in the decoding error
    of [r.json()], and so does [messages] with any status but 401, a 404 or
    a 500 with an error page included; no object has been made.
    [delete_folder], which decodes nothing, returns. *)
Theorem undecodable_body_raises {Message} (jm : loc → pyval → exn + list Message)
    w self f i token r rest name destination wm rm restm :
  folder_at w self f i token →
  inbox w = r :: rest →
  status_code r ≤ 399 ∨ 452 ≤ status_code r →
  json_body r = None →
  folder_at wm self f i token →
  inbox wm = rm :: restm →
  status_code rm ≠ 401 →
  json_body rm = None →
  raises_decoding (rename_folder self name) w r rest JSONDecodeError ∧
  raises_decoding (get_subfolders self) w r rest JSONDecodeError ∧
  raises_decoding (move_folder self destination) w r rest JSONDecodeError ∧
  raises_decoding (copy_folder self destination) w r rest JSONDecodeError ∧
  raises_decoding (create_child_folder self name) w r rest JSONDecodeError ∧
  raises_decoding (messages jm self) wm rm restm JSONDecodeError ∧
  (∃ q, delete_folder self w = (sent w q rest, inr ())).
Proof.
  intros Hself Hin Hs%in_error_band_false Hbody Hselfm Hinm Hsm Hbodym.
  pose proof Hself as (Hf & _ & _). pose proof Hselfm as (Hfm & _ & _).
  unfold raises_decoding. split_and!; eexists.
  - rewrite (rename_folder_eq _ _ _ _ _ Hself). by eapply folder_reply_undecodable.
  - rewrite (get_subfolders_eq _ _ _ _ _ Hself).
    rewrite (bind_ok _ _ _ _ _ (send_ok _ _ _ _ Hin)).
    rewrite (subfolders_reply_success _ f) by done.
    by rewrite json_then, Hbody.
  - rewrite (move_folder_eq _ _ _ _ _ Hself). by eapply folder_reply_undecodable.
  - rewrite (copy_folder_eq _ _ _ _ _ Hself). by eapply folder_reply_undecodable.
  - rewrite (create_child_folder_eq _ _ _ _ _ Hself). by eapply folder_reply_undecodable.
  - rewrite (messages_eq _ _ _ _ _ Hselfm).
    rewrite (bind_ok _ _ _ _ _ (send_ok _ _ _ _ Hinm)).
    rewrite (messages_reply_success _ _ f) by done.
    by rewrite json_then, Hbodym.
  - rewrite (delete_folder_eq _ _ _ _ _ Hself).
    rewrite (bind_ok _ _ _ _ _ (send_ok _ _ _ _ Hin)).
    by apply delete_reply_success.
Qed.

Lemma undecodable_body_raises_witness :
  raises_decoding (rename_folder 2 "Archive") (sample_world [error_page 500])
    (error_page 500) [] JSONDecodeError ∧
  raises_decoding (get_subfolders 2) (sample_world [error_page 500])
    (error_page 500) [] JSONDecodeError ∧
  raises_decoding (move_folder 2 "BBB") (sample_world [error_page 500])
    (error_page 500) [] JSONDecodeError ∧
  raises_decoding (copy_folder 2 "BBB") (sample_world [error_page 500])
    (error_page 500) [] JSONDecodeError ∧
  raises_decoding (create_child_folder 2 "Archive") (sample_world [error_page 500])
    (error_page 500) [] JSONDecodeError ∧
  raises_decoding (messages sample_messages 2) (sample_world [error_page 404])
    (error_page 404) [] JSONDecodeError ∧
  (∃ q, delete_folder 2 (sample_world [error_page 500])
        = (sent (sample_world [error_page 500]) q [], inr ())).
Proof.
  apply (undecodable_body_raises sample_messages (sample_world [error_page 500]) 2
           sample_folder "AAA" "secret" (error_page 500) [] "Archive" "BBB"
           (sample_world [error_page 404]) (error_page 404) []).
  - unfold folder_at. split_and!; reflexivity.
  - reflexivity.
  - right. simpl. lia.
  - reflexivity.
  - unfold folder_at. split_and!; reflexivity.
  - reflexivity.
  - simpl. lia.
  - reflexivity.
Defined.

Lemma getitem_not_dict j k w :
  (∀ d, j ≠ PDict d) → getitem j k w = (w, inl TypeError).
Proof. intros Hj. destruct j; try done. by destruct (Hj d). Qed.

Lemma json_to_folder_not_dict a j w :
  (∀ d, j ≠ PDict d) → _json_to_folder a j w = (w, inl TypeError).
Proof.
  intros Hj. unfold _json_to_folder.
  by rewrite (bind_raise _ _ _ _ _ (getitem_not_dict j "Id" w Hj)).
Qed.

Lemma json_to_folders_not_dict a j w :
  (∀ d, j ≠ PDict d) → _json_to_folders a j w = (w, inl TypeError).
Proof.
  intros Hj. unfold _json_to_folders.
  by rewrite (bind_raise _ _ _ _ _ (getitem_not_dict j "value" w Hj)).
Qed.

(** X5.  A body that is JSON but not an object (an array, a string, a
    number, [null]) cannot be indexed by a key: with a status outside the
    band, the five methods that return Folders end in a [TypeError], and no
    object has been made. *)
Theorem non_object_body_raises w self f i token r rest j name destination :
  folder_at w self f i token →
  inbox w = r :: rest →
  status_code r ≤ 399 ∨ 452 ≤ status_code r →
  json_body r = Some j →
  (∀ d, j ≠ PDict d) →
  raises_decoding (rename_folder self name) w r rest TypeError ∧
  raises_decoding (get_subfolders self) w r rest TypeError ∧
  raises_decoding (move_folder self destination) w r rest TypeError ∧
  raises_decoding (copy_folder self destination) w r rest TypeError ∧
  raises_decoding (create_child_folder self name) w r rest TypeError.
Proof.
  intros Hself Hin Hs%in_error_band_false Hbody Hj.
  pose proof Hself as (Hf & _ & _).
  assert (Hreply : ∀ q, (send q ≫= folder_reply self) w
                        = (decoded w q r rest, inl TypeError)).
  { intros q. rewrite (bind_ok _ _ _ _ _ (send_ok q w r rest Hin)).
    rewrite (folder_reply_success _ f) by done.
    rewrite json_then, Hbody. by apply json_to_folder_not_dict. }
  unfold raises_decoding. split_and!; eexists.
  - rewrite (rename_folder_eq _ _ _ _ _ Hself). apply Hreply.
  - rewrite (get_subfolders_eq _ _ _ _ _ Hself).
    rewrite (bind_ok _ _ _ _ _ (send_ok _ _ _ _ Hin)).
    rewrite (subfolders_reply_success _ f) by done.
    rewrite json_then, Hbody. by apply json_to_folders_not_dict.
  - rewrite (move_folder_eq _ _ _ _ _ Hself). apply Hreply.
  - rewrite (copy_folder_eq _ _ _ _ _ Hself). apply Hreply.
  - rewrite (create_child_folder_eq _ _ _ _ _ Hself). apply Hreply.
Qed.

Lemma non_object_body_raises_witness :
  raises_decoding (rename_folder 2 "Archive") (sample_world [answer 200 (PList [])])
    (answer 200 (PList [])) [] TypeError ∧
  raises_decoding (get_subfolders 2) (sample_world [answer 200 (PList [])])
    (answer 200 (PList [])) [] TypeError ∧
  raises_decoding (move_folder 2 "BBB") (sample_world [answer 200 (PList [])])
    (answer 200 (PList [])) [] TypeError ∧
  raises_decoding (copy_folder 2 "BBB") (sample_world [answer 200 (PList [])])
    (answer 200 (PList [])) [] TypeError ∧
  raises_decoding (create_child_folder 2 "Archive") (sample_world [answer 200 (PList [])])
    (answer 200 (PList [])) [] TypeError.
Proof.
  apply (non_object_body_raises (sample_world [answer 200 (PList [])]) 2 sample_folder
           "AAA" "secret" (answer 200 (PList [])) [] (PList []) "Archive" "BBB").
  - unfold folder_at. split_and!; reflexivity.
  - reflexivity.
  - left. simpl. lia.
  - reflexivity.
  - intros d. discriminate.
Defined.

(** ** What decoding reads *)

(** X6.  Only the six keys are read: two JSON objects that agree on them
    are decoded alike, a Folder for a Folder and a [KeyError] for a
    [KeyError]; so a field that is not one of the six can be added or
    changed without any effect. *)
Theorem decoding_reads_six_keys a d d' k v w :
  (∀ k0, k0 ∈ folder_keys → d !! k0 = d' !! k0) →
  k ∉ folder_keys →
  _json_to_folder a (PDict d) w = _json_to_folder a (PDict d') w ∧
  _json_to_folder a (PDict (<[k := v]> d)) w = _json_to_folder a (PDict d) w.
Proof.
  intros Hagree Hk.
  assert (Hsame : ∀ d1 d2, (∀ k0, k0 ∈ folder_keys → d1 !! k0 = d2 !! k0) →
            _json_to_folder a (PDict d1) w = _json_to_folder a (PDict d2) w).
  { intros d1 d2 H. unfold _json_to_folder, getitem.
    rewrite (H "Id"), (H "DisplayName"), (H "ParentFolderId"),
      (H "ChildFolderCount"), (H "UnreadItemCount"), (H "TotalItemCount");
      [done|in_keys..]. }
  split; [by apply Hsame|]. apply Hsame. intros k0 Hk0.
  apply lookup_insert_ne. by intros ->.
Qed.

Lemma decoding_reads_six_keys_witness :
  _json_to_folder 1 (PDict drafts_json) (sample_world [])
    = _json_to_folder 1 (PDict (delete "WellKnownName" drafts_json)) (sample_world []) ∧
  _json_to_folder 1 (PDict (<["@odata.id" := PStr "x"]> drafts_json)) (sample_world [])
    = _json_to_folder 1 (PDict drafts_json) (sample_world []).
Proof.
  apply (decoding_reads_six_keys 1 drafts_json (delete "WellKnownName" drafts_json)
           "@odata.id" (PStr "x") (sample_world [])).
  - intros k0 Hk0. unfold folder_keys in Hk0.
    repeat (apply elem_of_cons in Hk0 as [->|Hk0]; [reflexivity|]).
    by apply elem_of_nil in Hk0.
  - unfold folder_keys. intros Hin.
    repeat (apply elem_of_cons in Hin as [Heq|Hin]; [discriminate Heq|]).
    by apply elem_of_nil in Hin.
Defined.

(** ** The objects that a list of folders makes *)

Lemma mapM_json_to_folder_count a fs :
  Forall folder_json fs →
  ∀ w, ∃ w' ls,
    mapM (_json_to_folder a) fs w = (w', inr ls) ∧
    length ls = length fs ∧
    heap w ⊆ heap w' ∧
    dom (heap w') = dom (heap w) ∪ list_to_set ls ∧
    size (heap w') = (size (heap w) + length fs)%nat.
Proof.
  induction 1 as [|j fs Hj _ IH]; intros w.
  - exists w, []. split_and!; [done..| |].
    + simpl. by rewrite (right_id_L ∅ (∪)).
    + simpl. lia.
  - destruct (folder_json_decodes a j Hj) as [F HF].
    set (l := fresh (dom (heap w))).
    set (w1 := {| heap := <[l := OFolder F]> (heap w); inbox := inbox w; trace := trace w |}).
    destruct (IH w1) as (w' & ls & Hrun & Hlen & Hsub & Hdom & Hsize).
    assert (Hl : heap w !! l = None) by apply fresh_loc.
    exists w', (l :: ls). split_and!.
    + cbn [mapM]. rewrite (bind_ok _ _ w w1 l) by apply HF.
      by rewrite (bind_ok _ _ w1 w' ls).
    + simpl. by rewrite Hlen.
    + etrans; [|exact Hsub]. by apply insert_subseteq.
    + rewrite Hdom. simpl. rewrite dom_insert_L.
      by rewrite (comm_L (∪) {[l]} (dom (heap w))), <- (assoc_L (∪)).
    + rewrite Hsize. simpl. rewrite map_size_insert_None by done. simpl. lia.
Qed.

(** X7.  [get_subfolders] makes one object for each item of the array and
    no other: after a success on an array of [n] folder objects the heap
    holds what it held and the [n] instances returned, nothing more; none
    for an empty array. *)
Theorem subfolders_make_one_object_each w self f i token r rest d fs :
  folder_at w self f i token →
  inbox w = r :: rest →
  status_code r ≤ 399 ∨ 452 ≤ status_code r →
  json_body r = Some (PDict d) →
  d !! "value" = Some (PList fs) →
  Forall folder_json fs →
  ∃ w' ls,
    get_subfolders self w = (w', inr ls) ∧
    length ls = length fs ∧
    heap w ⊆ heap w' ∧
    dom (heap w') = dom (heap w) ∪ list_to_set ls ∧
    size (heap w') = (size (heap w) + length fs)%nat.
Proof.
  intros Hself Hin Hs%in_error_band_false Hbody Hvalue Hfs.
  rewrite (get_subfolders_eq _ _ _ _ _ Hself).
  rewrite (bind_ok _ _ _ _ _ (send_ok _ _ _ _ Hin)).
  destruct Hself as (Hf & _ & _).
  rewrite (subfolders_reply_success _ f) by done.
  rewrite json_then, Hbody.
  unfold _json_to_folders, getitem. rewrite Hvalue.
  unfold mbind at 1, M_bind at 1. simpl.
  unfold mbind at 1, M_bind at 1. simpl.
  match goal with |- context [mapM _ fs ?w1] =>
    destruct (mapM_json_to_folder_count (account f) fs Hfs w1)
      as (w' & ls & Hrun & Hlen & Hsub & Hdom & Hsize)
  end.
  by exists w', ls.
Qed.

Lemma subfolders_make_one_object_each_witness :
  ∃ w' ls,
    get_subfolders 2 (sample_world [answer 200 folders_json]) = (w', inr ls) ∧
    length ls = length [PDict archive_json; PDict drafts_json] ∧
    heap (sample_world [answer 200 folders_json]) ⊆ heap w' ∧
    dom (heap w') = dom (heap (sample_world [answer 200 folders_json])) ∪ list_to_set ls ∧
    size (heap w') = (size (heap (sample_world [answer 200 folders_json]))
                      + length [PDict archive_json; PDict drafts_json])%nat.
Proof.
  apply (subfolders_make_one_object_each (sample_world [answer 200 folders_json]) 2
           sample_folder "AAA" "secret" (answer 200 folders_json) []
           {[ "value" := PList [PDict archive_json; PDict drafts_json] ]}
           [PDict archive_json; PDict drafts_json]).
  - unfold folder_at. split_and!; reflexivity.
  - reflexivity.
  - left. simpl. lia.
  - reflexivity.
  - reflexivity.
  - repeat constructor;
      [exact archive_is_folder_json | exact drafts_is_folder_json].
Defined.

Lemma mapM_json_to_folder_bad a good bad rest :
  Forall folder_json good →
  (∃ k, k ∈ folder_keys ∧ bad !! k = None) →
  ∀ w, ∃ w' k,
    mapM (_json_to_folder a) (good ++ PDict bad :: rest) w = (w', inl (KeyError k)) ∧
    k ∈ folder_keys ∧ bad !! k = None ∧
    heap w ⊆ heap w' ∧
    size (heap w') = (size (heap w) + length good)%nat.
Proof.
  intros Hgood Hbad. induction Hgood as [|j good Hj _ IH]; intros w.
  - destruct (json_to_folder_missing a bad w Hbad) as (k & Hk & Hnone & Hrun).
    exists w, k. split_and!.
    + cbn [app mapM]. by rewrite (bind_raise _ _ _ _ _ Hrun).
    + done.
    + done.
    + done.
    + simpl. lia.
  - destruct (folder_json_decodes a j Hj) as [F HF].
    set (l := fresh (dom (heap w))).
    set (w1 := {| heap := <[l := OFolder F]> (heap w); inbox := inbox w; trace := trace w |}).
    destruct (IH w1) as (w' & k & Hrun & Hk & Hnone & Hsub & Hsize).
    assert (Hl : heap w !! l = None) by apply fresh_loc.
    exists w', k. split_and!.
    + cbn [app mapM]. rewrite (bind_ok _ _ w w1 l) by apply HF.
      by rewrite (bind_raise _ _ _ _ _ Hrun).
    + done.
    + done.
    + etrans; [|exact Hsub]. by apply insert_subseteq.
    + rewrite Hsize. simpl. rewrite map_size_insert_None by done. simpl. lia.
Qed.

(** X8.  One bad item fails the whole list: when an item of the array
    lacks one of the six keys, [get_subfolders] ends in the [KeyError] of
    that item and returns no Folder at all, not those of the items before
    it; the instances made of those items are left in the heap, held by
    nothing. *)
Theorem bad_item_fails_the_list w self f i token r rest d good bad others :
  folder_at w self f i token →
  inbox w = r :: rest →
  status_code r ≤ 399 ∨ 452 ≤ status_code r →
  json_body r = Some (PDict d) →
  d !! "value" = Some (PList (good ++ PDict bad :: others)) →
  Forall folder_json good →
  (∃ k, k ∈ folder_keys ∧ bad !! k = None) →
  ∃ w' k,
    get_subfolders self w = (w', inl (KeyError k)) ∧
    k ∈ folder_keys ∧ bad !! k = None ∧
    heap w ⊆ heap w' ∧
    size (heap w') = (size (heap w) + length good)%nat.
Proof.
  intros Hself Hin Hs%in_error_band_false Hbody Hvalue Hgood Hbad.
  rewrite (get_subfolders_eq _ _ _ _ _ Hself).
  rewrite (bind_ok _ _ _ _ _ (send_ok _ _ _ _ Hin)).
  destruct Hself as (Hf & _ & _).
  rewrite (subfolders_reply_success _ f) by done.
  rewrite json_then, Hbody.
  unfold _json_to_folders, getitem. rewrite Hvalue.
  unfold mbind at 1, M_bind at 1. simpl.
  unfold mbind at 1, M_bind at 1. simpl.
  match goal with |- context [mapM _ _ ?w1] =>
    destruct (mapM_json_to_folder_bad (account f) good bad others Hgood Hbad w1)
      as (w' & k & Hrun & Hk & Hnone & Hsub & Hsize)
  end.
  by exists w', k.
Qed.

Lemma bad_item_fails_the_list_witness :
  ∃ w' k,
    get_subfolders 2 world_bad_item = (w', inl (KeyError k)) ∧
    k ∈ folder_keys ∧ incomplete_json !! k = None ∧
    heap world_bad_item ⊆ heap w' ∧
    size (heap w') = (size (heap world_bad_item) + length [PDict archive_json])%nat.
Proof.
  apply (bad_item_fails_the_list world_bad_item 2 sample_folder "AAA" "secret"
           (answer 200 bad_item_json) []
           {[ "value" := PList [PDict archive_json; PDict incomplete_json; PDict drafts_json] ]}
           [PDict archive_json] incomplete_json [PDict drafts_json]).
  - unfold folder_at. split_and!; reflexivity.
  - reflexivity.
  - left. simpl. lia.
  - reflexivity.
  - reflexivity.
  - repeat constructor. exact archive_is_folder_json.
  - exists "ParentFolderId". split; [|reflexivity].
    unfold folder_keys. repeat first [apply list_elem_of_here | apply list_elem_of_further].
Defined.

Lemma json_to_folders_not_list a d v w :
  d !! "value" = Some v →
  (∀ l, v ≠ PList l) →
  _json_to_folders a (PDict d) w
  = (w, if iterates_nothing v then inr [] else inl TypeError).
Proof.
  intros Hvalue Hv. unfold _json_to_folders, getitem. rewrite Hvalue.
  unfold mbind at 1, M_bind at 1. simpl.
  destruct v as [| | | |s|l|m]; try done.
  - destruct s as [|c s]; [done|]. simpl.
    unfold mbind at 1, M_bind at 1. simpl. cbn [fmap list_fmap mapM].
    by rewrite (bind_raise _ _ w w TypeError)
      by (apply json_to_folder_not_dict; intros ?; discriminate).
  - by destruct (Hv l).
  - simpl. unfold mbind at 1, M_bind at 1. simpl.
    rewrite <- (length_map_to_list m).
    destruct (map_to_list m) as [|[k x] kvs]; [done|]. simpl.
    by rewrite (bind_raise _ _ w w TypeError)
      by (apply json_to_folder_not_dict; intros ?; discriminate).
Qed.

(** X9.  The [value] of a list payload is iterated, whatever it is: when
    it is not an array, [get_subfolders] returns the empty list for an
    empty string or an empty object, whose iteration makes no step, and
    ends in a [TypeError] for everything else (a number, [null], a string
    or an object that is not empty, whose items are strings and cannot be
    indexed by a key).  No object is made either way. *)
Theorem value_that_is_not_a_list w self f i token r rest d v :
  folder_at w self f i token →
  inbox w = r :: rest →
  status_code r ≤ 399 ∨ 452 ≤ status_code r →
  json_body r = Some (PDict d) →
  d !! "value" = Some v →
  (∀ l, v ≠ PList l) →
  ∃ q, get_subfolders self w
       = (decoded w q r rest, if iterates_nothing v then inr [] else inl TypeError).
Proof.
  intros Hself Hin Hs%in_error_band_false Hbody Hvalue Hv. eexists.
  rewrite (get_subfolders_eq _ _ _ _ _ Hself).
  rewrite (bind_ok _ _ _ _ _ (send_ok _ _ _ _ Hin)).
  destruct Hself as (Hf & _ & _).
  rewrite (subfolders_reply_success _ f) by done.
  rewrite json_then, Hbody. by apply json_to_folders_not_list.
Qed.

Lemma value_that_is_not_a_list_witness :
  (∃ q, get_subfolders 2 (sample_world [answer 200 (PDict {[ "value" := PStr "" ]})])
        = (decoded (sample_world [answer 200 (PDict {[ "value" := PStr "" ]})]) q
             (answer 200 (PDict {[ "value" := PStr "" ]})) [],
           inr [])) ∧
  (∃ q, get_subfolders 2 (sample_world [answer 200 (PDict {[ "value" := PNone ]})])
        = (decoded (sample_world [answer 200 (PDict {[ "value" := PNone ]})]) q
             (answer 200 (PDict {[ "value" := PNone ]})) [],
           inl TypeError)).
Proof.
  split.
  - refine (value_that_is_not_a_list
              (sample_world [answer 200 (PDict {[ "value" := PStr "" ]})]) 2 sample_folder
              "AAA" "secret" (answer 200 (PDict {[ "value" := PStr "" ]})) []
              {[ "value" := PStr "" ]} (PStr "") _ _ _ _ _ _).
    + unfold folder_at. split_and!; reflexivity.
    + reflexivity.
    + left. simpl. lia.
    + reflexivity.
    + reflexivity.
    + intros l. discriminate.
  - refine (value_that_is_not_a_list
              (sample_world [answer 200 (PDict {[ "value" := PNone ]})]) 2 sample_folder
              "AAA" "secret" (answer 200 (PDict {[ "value" := PNone ]})) []
              {[ "value" := PNone ]} PNone _ _ _ _ _ _).
    + unfold folder_at. split_and!; reflexivity.
    + reflexivity.
    + left. simpl. lia.
    + reflexivity.
    + reflexivity.
    + intros l. discriminate.
Defined.

(** ** Using what a method returns *)

Lemma decodes_to_account a j F : decodes_to a j F → account F = a.
Proof.
  intros HF. specialize (HF {| heap := ∅; inbox := []; trace := [] |}).
  unfold _json_to_folder, getitem, Folder_init, Folder_new, mbind, M_bind,
    mret, M_ret, raise in HF.
  destruct j as [| | | | | |d]; try discriminate HF.
  repeat (match type of HF with context [d !! ?k] => destruct (d !! k) end;
          [|discriminate HF]).
  apply (f_equal (λ x, heap x.1 !! fresh (dom (∅ : gmap loc object)))) in HF.
  cbn [fst heap] in HF. rewrite !lookup_insert_eq in HF.
  injection HF as HF. by rewrite <- HF.
Qed.

Lemma folder_reply_usable w self f i token q r rest j F i' :
  folder_at w self f i token →
  inbox w = r :: rest →
  in_error_band (status_code r) = false →
  json_body r = Some j →
  decodes_to (account f) j F →
  id F = PStr i' →
  ∃ w' l',
    (send q ≫= folder_reply self) w = (w', inr l') ∧
    folder_at w' l' F i' token ∧
    inbox w' = rest ∧
    requests_of (trace w') = requests_of (trace w) ++ [q].
Proof.
  intros (Hf & _ & Hacc) Hin Hs Hbody HF Hid.
  exists {| heap := <[fresh (dom (heap w)) := OFolder F]> (heap w);
            inbox := rest; trace := trace w ++ [EvRequest q; EvJson r] |},
         (fresh (dom (heap w))).
  pose proof (fresh_loc w) as Hfresh.
  split_and!.
  - rewrite (bind_ok _ _ _ _ _ (send_ok q w r rest Hin)).
    rewrite (folder_reply_success _ f) by done.
    rewrite json_then, Hbody. by rewrite HF.
  - split_and!; simpl.
    + apply lookup_insert_eq.
    + done.
    + rewrite (decodes_to_account _ _ _ HF).
      rewrite lookup_insert_ne; [done|]. intros Heq. rewrite Heq in Hfresh. congruence.
  - done.
  - simpl. unfold requests_of. by rewrite omap_app.
Qed.

Lemma then_delete_sends (m : M loc) w w' l' F i' token q :
  m w = (w', inr l') →
  folder_at w' l' F i' token →
  requests_of (trace w') = requests_of (trace w) ++ [q] →
  requests_of (trace ((m ≫= delete_folder) w).1)
  = requests_of (trace w)
    ++ [q; {| req_method := DELETE; req_url := base_url +:+ i';
              req_headers := bearer_headers token; req_data := None |}].
Proof.
  intros Hm Hat Hreq. rewrite (bind_ok _ _ _ _ _ Hm).
  rewrite (delete_folder_sends _ _ _ _ _ Hat), Hreq. by rewrite <- app_assoc.
Qed.

(** X10.  The Folder that [rename_folder], [move_folder], [copy_folder] or
    [create_child_folder] returns is bound to the account of the Folder it
    was called on, and its [id] is the [Id] of the response: a method
    called on it next sends its request to the URL of that [Id], with the
    token of the same account.  So the method followed by [delete_folder]
    on its result sends two requests, the second a DELETE to the new
    [id]. *)
Theorem returned_folder_is_usable w self f i token r rest j F i' name destination :
  folder_at w self f i token →
  inbox w = r :: rest →
  status_code r ≤ 399 ∨ 452 ≤ status_code r →
  json_body r = Some j →
  decodes_to (account f) j F →
  id F = PStr i' →
  let deletion := {| req_method := DELETE; req_url := base_url +:+ i';
                     req_headers := bearer_headers token; req_data := None |} in
  (∃ w' l' q, rename_folder self name w = (w', inr l') ∧ folder_at w' l' F i' token ∧
     requests_of (trace ((rename_folder self name ≫= delete_folder) w).1)
     = requests_of (trace w) ++ [q; deletion]) ∧
  (∃ w' l' q, move_folder self destination w = (w', inr l') ∧ folder_at w' l' F i' token ∧
     requests_of (trace ((move_folder self destination ≫= delete_folder) w).1)
     = requests_of (trace w) ++ [q; deletion]) ∧
  (∃ w' l' q, copy_folder self destination w = (w', inr l') ∧ folder_at w' l' F i' token ∧
     requests_of (trace ((copy_folder self destination ≫= delete_folder) w).1)
     = requests_of (trace w) ++ [q; deletion]) ∧
  (∃ w' l' q, create_child_folder self name w = (w', inr l') ∧ folder_at w' l' F i' token ∧
     requests_of (trace ((create_child_folder self name ≫= delete_folder) w).1)
     = requests_of (trace w) ++ [q; deletion]).
Proof.
  intros Hself Hin Hs%in_error_band_false Hbody HF Hid deletion.
  assert (Hreply : ∀ (m : M loc) q,
            m w = (send q ≫= folder_reply self) w →
            ∃ w' l' q0, m w = (w', inr l') ∧ folder_at w' l' F i' token ∧
              requests_of (trace ((m ≫= delete_folder) w).1)
              = requests_of (trace w) ++ [q0; deletion]).
  { intros m q Hm.
    destruct (folder_reply_usable w self f i token q r rest j F i'
                Hself Hin Hs Hbody HF Hid) as (w' & l' & Hrun & Hat & _ & Hreq).
    rewrite <- Hm in Hrun. exists w', l', q. split_and!; [done..|].
    by eapply then_delete_sends. }
  split_and!.
  - eapply Hreply, (rename_folder_eq _ _ _ _ _ Hself).
  - eapply Hreply, (move_folder_eq _ _ _ _ _ Hself).
  - eapply Hreply, (copy_folder_eq _ _ _ _ _ Hself).
  - eapply Hreply, (create_child_folder_eq _ _ _ _ _ Hself).
Qed.

Lemma returned_folder_is_usable_witness :
  let deletion := {| req_method := DELETE; req_url := base_url +:+ "CCC";
                     req_headers := bearer_headers "secret"; req_data := None |} in
  (∃ w' l' q, rename_folder 2 "Moved" world_moved = (w', inr l') ∧
     folder_at w' l' moved_folder "CCC" "secret" ∧
     requests_of (trace ((rename_folder 2 "Moved" ≫= delete_folder) world_moved).1)
     = requests_of (trace world_moved) ++ [q; deletion]) ∧
  (∃ w' l' q, move_folder 2 "BBB" world_moved = (w', inr l') ∧
     folder_at w' l' moved_folder "CCC" "secret" ∧
     requests_of (trace ((move_folder 2 "BBB" ≫= delete_folder) world_moved).1)
     = requests_of (trace world_moved) ++ [q; deletion]) ∧
  (∃ w' l' q, copy_folder 2 "BBB" world_moved = (w', inr l') ∧
     folder_at w' l' moved_folder "CCC" "secret" ∧
     requests_of (trace ((copy_folder 2 "BBB" ≫= delete_folder) world_moved).1)
     = requests_of (trace world_moved) ++ [q; deletion]) ∧
  (∃ w' l' q, create_child_folder 2 "Moved" world_moved = (w', inr l') ∧
     folder_at w' l' moved_folder "CCC" "secret" ∧
     requests_of (trace ((create_child_folder 2 "Moved" ≫= delete_folder) world_moved).1)
     = requests_of (trace world_moved) ++ [q; deletion]).
Proof.
  apply (returned_folder_is_usable world_moved 2 sample_folder "AAA" "secret"
           (answer 201 (PDict moved_json)) [answer 204 PNone] (PDict moved_json)
           moved_folder "CCC" "Moved" "BBB").
  - unfold folder_at. split_and!; reflexivity.
  - reflexivity.
  - left. simpl. lia.
  - reflexivity.
  - intros w0. reflexivity.
  - reflexivity.
Defined.

(** X11.  Every Folder that [get_subfolders] returns is bound to the
    account of the Folder it was called on, and that account is as it
    was: the children send the token of their parent. *)
Theorem subfolders_share_the_account w self f i token r rest d fs :
  folder_at w self f i token →
  inbox w = r :: rest →
  status_code r ≤ 399 ∨ 452 ≤ status_code r →
  json_body r = Some (PDict d) →
  d !! "value" = Some (PList fs) →
  Forall folder_json fs →
  ∃ w' ls,
    get_subfolders self w = (w', inr ls) ∧
    heap w' !! account f = Some (OAccount {| access_token := token |}) ∧
    Forall (λ l, ∃ F, heap w' !! l = Some (OFolder F) ∧ account F = account f) ls.
Proof.
  intros Hself Hin Hs%in_error_band_false Hbody Hvalue Hfs.
  rewrite (get_subfolders_eq _ _ _ _ _ Hself).
  rewrite (bind_ok _ _ _ _ _ (send_ok _ _ _ _ Hin)).
  destruct Hself as (Hf & _ & Hacc).
  rewrite (subfolders_reply_success _ f) by done.
  rewrite json_then, Hbody.
  match goal with |- context [_json_to_folders _ _ ?w1] =>
    destruct (json_to_folders_in_order (account f) d fs w1 Hvalue Hfs)
      as (w' & ls & Hrun & Hsub & _ & _ & _ & _ & Hall)
  end.
  exists w', ls. split_and!; [done| |].
  - by apply (lookup_weaken (heap w)).
  - apply Forall_forall. intros l Hl.
    apply list_elem_of_lookup in Hl as [n Hn].
    destruct (Forall2_lookup_r _ _ _ n l Hall Hn) as (j & _ & F & HF & Hheap).
    exists F. split; [done|]. by eapply decodes_to_account.
Qed.

Lemma subfolders_share_the_account_witness :
  ∃ w' ls,
    get_subfolders 2 (sample_world [answer 200 folders_json]) = (w', inr ls) ∧
    heap w' !! account sample_folder = Some (OAccount {| access_token := "secret" |}) ∧
    Forall (λ l, ∃ F, heap w' !! l = Some (OFolder F) ∧ account F = account sample_folder)
      ls.
Proof.
  apply (subfolders_share_the_account (sample_world [answer 200 folders_json]) 2
           sample_folder "AAA" "secret" (answer 200 folders_json) []
           {[ "value" := PList [PDict archive_json; PDict drafts_json] ]}
           [PDict archive_json; PDict drafts_json]).
  - unfold folder_at. split_and!; reflexivity.
  - reflexivity.
  - left. simpl. lia.
  - reflexivity.
  - reflexivity.
  - repeat constructor;
      [exact archive_is_folder_json | exact drafts_is_folder_json].
Defined.

(** ** Printing *)

Lemma repr_run w l F :
  heap w !! l = Some (OFolder F) →
  __repr__ l w = (w, match name F with PStr s => inr s | _ => inl TypeError end).
Proof.
  intros Hl. unfold __repr__, str, __str__.
  rewrite (bind_ok _ _ _ _ _ (attr_ok name _ _ _ Hl)). by destruct (name F).
Qed.

(** X12.  What a Folder prints as is its [name], and the [name] of the
    Folder that a change returns is the [DisplayName] of the response, not
    the argument of the call: [repr] of the result gives that
    [DisplayName] when it is a string and ends in a [TypeError] when it is
    not, while [repr] of the instance the method was called on still gives
    the old name. *)
Theorem repr_after_a_change w self f i token r rest j F old new_name destination :
  folder_at w self f i token →
  inbox w = r :: rest →
  status_code r ≤ 399 ∨ 452 ≤ status_code r →
  json_body r = Some j →
  decodes_to (account f) j F →
  name f = PStr old →
  let printed := match name F with PStr s => inr s | _ => inl TypeError end in
  (∃ w' l', rename_folder self new_name w = (w', inr l') ∧
            __repr__ l' w' = (w', printed) ∧ __repr__ self w' = (w', inr old)) ∧
  (∃ w' l', move_folder self destination w = (w', inr l') ∧
            __repr__ l' w' = (w', printed) ∧ __repr__ self w' = (w', inr old)) ∧
  (∃ w' l', copy_folder self destination w = (w', inr l') ∧
            __repr__ l' w' = (w', printed) ∧ __repr__ self w' = (w', inr old)) ∧
  (∃ w' l', create_child_folder self new_name w = (w', inr l') ∧
            __repr__ l' w' = (w', printed) ∧ __repr__ self w' = (w', inr old)).
Proof.
  intros Hself Hin Hs%in_error_band_false Hbody HF Hold printed.
  pose proof Hself as (Hf & _ & _).
  assert (Hreply : ∀ (m : M loc) q,
            m w = (send q ≫= folder_reply self) w →
            ∃ w' l', m w = (w', inr l') ∧
              __repr__ l' w' = (w', printed) ∧ __repr__ self w' = (w', inr old)).
  { intros m q Hm.
    destruct (folder_reply_new w self f q r rest j F Hf Hin Hs Hbody HF)
      as (w' & l' & Hrun & _ & _ & Hl' & Hframe).
    rewrite <- Hm in Hrun. exists w', l'. split_and!; [done| |].
    - by apply repr_run.
    - rewrite (repr_run w' self f) by by apply Hframe. by rewrite Hold. }
  split_and!.
  - eapply Hreply, (rename_folder_eq _ _ _ _ _ Hself).
  - eapply Hreply, (move_folder_eq _ _ _ _ _ Hself).
  - eapply Hreply, (copy_folder_eq _ _ _ _ _ Hself).
  - eapply Hreply, (create_child_folder_eq _ _ _ _ _ Hself).
Qed.

Lemma repr_after_a_change_witness :
  let printed : exn + string := inr "Moved" in
  (∃ w' l', rename_folder 2 "Archive" world_moved = (w', inr l') ∧
            __repr__ l' w' = (w', printed) ∧ __repr__ 2 w' = (w', inr "Inbox")) ∧
  (∃ w' l', move_folder 2 "BBB" world_moved = (w', inr l') ∧
            __repr__ l' w' = (w', printed) ∧ __repr__ 2 w' = (w', inr "Inbox")) ∧
  (∃ w' l', copy_folder 2 "BBB" world_moved = (w', inr l') ∧
            __repr__ l' w' = (w', printed) ∧ __repr__ 2 w' = (w', inr "Inbox")) ∧
  (∃ w' l', create_child_folder 2 "Archive" world_moved = (w', inr l') ∧
            __repr__ l' w' = (w', printed) ∧ __repr__ 2 w' = (w', inr "Inbox")).
Proof.
  apply (repr_after_a_change world_moved 2 sample_folder "AAA" "secret"
           (answer 201 (PDict moved_json)) [answer 204 PNone] (PDict moved_json)
           moved_folder "Inbox" "Archive" "BBB").
  - unfold folder_at. split_and!; reflexivity.
  - reflexivity.
  - left. simpl. lia.
  - reflexivity.
  - intros w0. reflexivity.
  - reflexivity.
Defined.

(** A Folder whose [DisplayName] came as [null] is made, and cannot be
    printed. *)
Example repr_of_a_null_name :
  let '(w', res) :=
    rename_folder 2 "Archive"
      (sample_world [answer 200 (PDict (<["DisplayName" := PNone]> archive_json))]) in
  ∃ l, res = inr l ∧ __repr__ l w' = (w', inl TypeError).
Proof. vm_compute. by eexists. Qed.

(** ** No object without a result *)

Global Instance same_heap_preorder : PreOrder same_heap.
Proof.
  split; unfold same_heap.
  - by intros w.
  - intros w1 w2 w3 H12 H23. by rewrite H23.
Qed.

Lemma send_same_heap q : stable same_heap (send q).
Proof.
  intros w. unfold same_heap, send, mbind, M_bind, log, receive. simpl.
  by case_match.
Qed.

Lemma json_same_heap r : stable same_heap (json r).
Proof.
  intros w. unfold same_heap, json, mbind, M_bind, log. simpl. by case_match.
Qed.

Lemma nothing_on_error_raise {A} e : makes_nothing_on_error (@raise A e).
Proof. by intros w. Qed.

Lemma nothing_on_error_result {A} (m : M A) :
  (∀ w, ∃ w' a, m w = (w', inr a)) → makes_nothing_on_error m.
Proof. intros Hm w. by destruct (Hm w) as (w' & a & ->). Qed.

Lemma nothing_on_error_stable {A} (m : M A) :
  stable same_heap m → makes_nothing_on_error m.
Proof. intros Hm w. specialize (Hm w). by destruct (m w) as [w' [e|a]]. Qed.

Lemma nothing_on_error_bind {A B} (m : M A) (k : A → M B) :
  stable same_heap m →
  (∀ a, makes_nothing_on_error (k a)) →
  makes_nothing_on_error (m ≫= k).
Proof.
  intros Hm Hk w. specialize (Hm w). unfold mbind, M_bind.
  destruct (m w) as [w1 [e|a]]; simpl in *; [done|].
  specialize (Hk a w1). destruct (k a w1) as [w2 [e|b]]; simpl in *; [|done].
  unfold same_heap in Hm. by rewrite Hk.
Qed.

Lemma json_to_folder_nothing_on_error a j : makes_nothing_on_error (_json_to_folder a j).
Proof.
  unfold _json_to_folder.
  repeat (apply nothing_on_error_bind; [apply stable_getitem, _|]; intros ?).
  apply nothing_on_error_result. intros w. by eexists _, _.
Qed.

Lemma folder_reply_nothing_on_error self r : makes_nothing_on_error (folder_reply self r).
Proof.
  unfold folder_reply. case_match; [apply nothing_on_error_raise|].
  apply nothing_on_error_bind; [apply json_same_heap|]. intros j.
  apply nothing_on_error_bind; [apply stable_attr, _|]. intros a.
  apply json_to_folder_nothing_on_error.
Qed.

Lemma method_nothing_on_error {A} (k : gmap string string → string → M A) self :
  (∀ h e, makes_nothing_on_error (k h e)) →
  makes_nothing_on_error (headers ← headers self;
                          self_id ← attr id self;
                          endpoint ← str_add base_url self_id;
                          k headers endpoint).
Proof.
  intros Hk.
  apply nothing_on_error_bind; [apply stable_headers, _|]. intros h.
  apply nothing_on_error_bind; [apply stable_attr, _|]. intros v.
  apply nothing_on_error_bind; [apply stable_str_add, _|]. intros e. apply Hk.
Qed.

(** X13.  The Folder is made last: whenever [rename_folder],
    [move_folder], [copy_folder] or [create_child_folder] ends in an
    exception, of whatever kind, the heap is as it was; [delete_folder]
    makes no object however it ends.  ([get_subfolders] is not of these:
    it leaves behind the instances made before a bad item.) *)
Theorem no_object_without_a_result self name destination :
  makes_nothing_on_error (rename_folder self name) ∧
  makes_nothing_on_error (move_folder self destination) ∧
  makes_nothing_on_error (copy_folder self destination) ∧
  makes_nothing_on_error (create_child_folder self name) ∧
  stable same_heap (delete_folder self).
Proof.
  split_and!.
  - unfold rename_folder. apply method_nothing_on_error. intros h e. simpl.
    apply nothing_on_error_bind; [apply send_same_heap|apply folder_reply_nothing_on_error].
  - unfold move_folder. apply method_nothing_on_error. intros h e. simpl.
    apply nothing_on_error_bind; [apply send_same_heap|apply folder_reply_nothing_on_error].
  - unfold copy_folder. apply method_nothing_on_error. intros h e. simpl.
    apply nothing_on_error_bind; [apply send_same_heap|apply folder_reply_nothing_on_error].
  - unfold create_child_folder. apply method_nothing_on_error. intros h e. simpl.
    apply nothing_on_error_bind; [apply send_same_heap|apply folder_reply_nothing_on_error].
  - unfold delete_folder. apply stable_method; [apply _|]. intros h e.
    apply stable_bind; [apply _|apply send_same_heap|]. intros r.
    case_match; [apply stable_raise, _|apply stable_ret, _].
Qed.

(** ** Which arguments give a JSON body *)

Lemma scan_string_plain_char c s :
  plain_char c = true → Json.scan_string (c :: s) = Json.scan_string s.
Proof.
  intros Hc. destruct c as [[] [] [] [] [] [] [] []]; try discriminate Hc; reflexivity.
Qed.

Lemma scan_string_plain cs s :
  Forall (λ c, plain_char c = true) cs →
  Json.scan_string (cs ++ s) = Json.scan_string s.
Proof.
  induction 1 as [|c cs Hc _ IH]; [done|].
  cbn [app]. by rewrite scan_string_plain_char.
Qed.

Lemma chars_of_display_name_open :
  list_ascii_of_string display_name_open =
  ["{"; " "; "034"; "D"; "i"; "s"; "p"; "l"; "a"; "y"; "N"; "a"; "m"; "e"; "034"; ":"; " ";
   "034"]%char.
Proof. reflexivity. Qed.

Lemma chars_of_destination_id_open :
  list_ascii_of_string destination_id_open =
  ["{"; " "; "034"; "D"; "e"; "s"; "t"; "i"; "n"; "a"; "t"; "i"; "o"; "n"; "I"; "d"; "034";
   ":"; " "; "034"]%char.
Proof. reflexivity. Qed.

Lemma display_name_of_plain_valid n :
  plain n → Json.valid (display_name_open +:+ n +:+ payload_close).
Proof.
  intros Hn. exists 3%nat.
  rewrite !list_ascii_app, chars_of_display_name_open.
  simpl. rewrite (scan_string_plain _ _ Hn). reflexivity.
Qed.

Lemma destination_of_plain_valid n :
  plain n → Json.valid (destination_id_open +:+ n +:+ payload_close).
Proof.
  intros Hn. exists 3%nat.
  rewrite !list_ascii_app, chars_of_destination_id_open.
  simpl. rewrite (scan_string_plain _ _ Hn). reflexivity.
Qed.

Ltac refute_scan Hp H :=
  rewrite !list_ascii_app, ?chars_of_display_name_open, ?chars_of_destination_id_open in H;
  rewrite <- ?app_assoc in H;
  simpl in H; try discriminate H;
  rewrite (scan_string_plain _ _ Hp) in H; simpl in H; discriminate H.

Lemma display_name_ending_badly_invalid p :
  plain p →
  ¬ Json.valid (display_name_open +:+ (p +:+ dquote) +:+ payload_close) ∧
  ¬ Json.valid (display_name_open +:+ (p +:+ backslash) +:+ payload_close).
Proof.
  intros Hp. split; intros [fuel H];
    destruct fuel as [|[|[|fuel]]]; refute_scan Hp H.
Qed.

Lemma destination_ending_badly_invalid p :
  plain p →
  ¬ Json.valid (destination_id_open +:+ (p +:+ dquote) +:+ payload_close) ∧
  ¬ Json.valid (destination_id_open +:+ (p +:+ backslash) +:+ payload_close).
Proof.
  intros Hp. split; intros [fuel H];
    destruct fuel as [|[|[|fuel]]]; refute_scan Hp H.
Qed.

(** X14.  The naive interpolation is safe for plain arguments: when the
    name or the destination has no quote, no backslash and no control
    character, the body that [rename_folder], [create_child_folder],
    [move_folder] or [copy_folder] sends is a JSON text. *)
Theorem plain_arguments_give_json w self f i token name destination :
  folder_at w self f i token →
  plain name →
  plain destination →
  posts_json (rename_folder self name) w ∧
  posts_json (create_child_folder self name) w ∧
  posts_json (move_folder self destination) w ∧
  posts_json (copy_folder self destination) w.
Proof.
  intros Hself Hname Hdest. unfold posts_json, posts. split_and!.
  - eexists. split; [eexists; split; [by eapply rename_folder_sends|done]|].
    by apply display_name_of_plain_valid.
  - eexists. split; [eexists; split; [by eapply create_child_folder_sends|done]|].
    by apply display_name_of_plain_valid.
  - eexists. split; [eexists; split; [by eapply move_folder_sends|done]|].
    by apply destination_of_plain_valid.
  - eexists. split; [eexists; split; [by eapply copy_folder_sends|done]|].
    by apply destination_of_plain_valid.
Qed.

Lemma plain_arguments_give_json_witness :
  posts_json (rename_folder 2 "Archive 2024") world_200 ∧
  posts_json (create_child_folder 2 "Archive 2024") world_200 ∧
  posts_json (move_folder 2 "BBB") world_200 ∧
  posts_json (copy_folder 2 "BBB") world_200.
Proof.
  apply (plain_arguments_give_json world_200 2 sample_folder "AAA" "secret"
           "Archive 2024" "BBB").
  - unfold folder_at. split_and!; reflexivity.
  - unfold plain. simpl. repeat constructor.
  - unfold plain. simpl. repeat constructor.
Defined.

(** X15.  Nothing is escaped, the backslash no more than the quote: when
    the argument is plain but for a last character that is a quote or a
    backslash, the body that the four methods send is not a JSON text. *)
Theorem arguments_ending_badly_give_no_json w self f i token p :
  folder_at w self f i token →
  plain p →
  (posts_no_json (rename_folder self (p +:+ dquote)) w ∧
   posts_no_json (create_child_folder self (p +:+ dquote)) w ∧
   posts_no_json (move_folder self (p +:+ dquote)) w ∧
   posts_no_json (copy_folder self (p +:+ dquote)) w) ∧
  (posts_no_json (rename_folder self (p +:+ backslash)) w ∧
   posts_no_json (create_child_folder self (p +:+ backslash)) w ∧
   posts_no_json (move_folder self (p +:+ backslash)) w ∧
   posts_no_json (copy_folder self (p +:+ backslash)) w).
Proof.
  intros Hself Hp.
  destruct (display_name_ending_badly_invalid p Hp) as [Hnq Hnb].
  destruct (destination_ending_badly_invalid p Hp) as [Hdq Hdb].
  unfold posts_no_json, posts. split; split_and!.
  - eexists. split; [eexists; split; [by eapply rename_folder_sends|done]|done].
  - eexists. split; [eexists; split; [by eapply create_child_folder_sends|done]|done].
  - eexists. split; [eexists; split; [by eapply move_folder_sends|done]|done].
  - eexists. split; [eexists; split; [by eapply copy_folder_sends|done]|done].
  - eexists. split; [eexists; split; [by eapply rename_folder_sends|done]|done].
  - eexists. split; [eexists; split; [by eapply create_child_folder_sends|done]|done].
  - eexists. split; [eexists; split; [by eapply move_folder_sends|done]|done].
  - eexists. split; [eexists; split; [by eapply copy_folder_sends|done]|done].
Qed.

Lemma arguments_ending_badly_give_no_json_witness :
  (posts_no_json (rename_folder 2 ("C:" +:+ dquote)) world_200 ∧
   posts_no_json (create_child_folder 2 ("C:" +:+ dquote)) world_200 ∧
   posts_no_json (move_folder 2 ("C:" +:+ dquote)) world_200 ∧
   posts_no_json (copy_folder 2 ("C:" +:+ dquote)) world_200) ∧
  (posts_no_json (rename_folder 2 ("C:" +:+ backslash)) world_200 ∧
   posts_no_json (create_child_folder 2 ("C:" +:+ backslash)) world_200 ∧
   posts_no_json (move_folder 2 ("C:" +:+ backslash)) world_200 ∧
   posts_no_json (copy_folder 2 ("C:" +:+ backslash)) world_200).
Proof.
  apply (arguments_ending_badly_give_no_json world_200 2 sample_folder "AAA" "secret" "C:").
  - unfold folder_at. split_and!; reflexivity.
  - unfold plain. simpl. repeat constructor.
Defined.
